(** * Biomimetic drainage backend (app.py): the hydraulic sizing pipeline

    A shallow embedding of [find_nearest_water], [get_rain_series] and the
    [/analyze] endpoint of [src/app.py], followed by the properties of the
    sizing engine.

    Modelling conventions.
    - A Python [float] is a real number of [R]: the formulas are read with
      exact arithmetic, so rounding error, overflow and NaN are outside the
      model.
    - A Python function may raise: it returns in the error monad [Res].
      [try: ... except:] is [try_except].
    - Earth Engine and the Open-Meteo archive are external services. What
      they answer is a [Provider], a record of functions that either raise
      or give the decoded value; the pipeline is a function of it. *)

From Stdlib Require Import Reals Lra Lia ZArith Ascii String.
From stdpp Require Import gmap strings.
From Stdlib Require Import Reals.

Local Open Scope R_scope.

(** ** Python values, exceptions, and the error monad *)

(** The scalars the pipeline reads out of decoded JSON: [None] (a JSON
    [null]) or a number. These are the values of a well-formed request
    and of the services' answers. JSON strings and booleans, which
    [float()] and [int()] would also convert, are not among them: a
    statement about requests holds for requests made of these values, and
    says so where it depends on it. *)
Inductive pyval : Type :=
  | PNone
  | PNum (r : R).

Inductive exn : Type :=
  | KeyError
  | TypeError
  | IndexError
  | AttributeError
  | EEException
  | RequestException.

Inductive Res (A : Type) : Type :=
  | Ok (a : A)
  | Raise (e : exn).
Arguments Ok {A} a.
Arguments Raise {A} e.

#[global] Instance Res_ret : MRet Res := fun A a => Ok a.
#[global] Instance Res_bind : MBind Res := fun A B k c =>
  match c with
  | Ok a => k a
  | Raise e => Raise e
  end.

(** [try: body except: handler] with a bare [except], which catches
    every exception. *)
Definition try_except {A : Type} (body : Res A) (handler : Res A) : Res A :=
  match body with
  | Ok a => Ok a
  | Raise _ => handler
  end.

(** [float(v)]: a number converts, [None] is a [TypeError]. *)
Definition py_float (v : pyval) : Res R :=
  match v with
  | PNum r => Ok r
  | PNone => Raise TypeError
  end.

(** [int(v)]: a number is truncated towards zero, [None] is a
    [TypeError]. *)
Definition py_int (v : pyval) : Res Z :=
  match v with
  | PNum r => Ok (if Rle_dec 0 r then Zfloor r else Zceil r)
  | PNone => Raise TypeError
  end.

(** [d[k]] and [d.get(k, default)] on a dictionary with string keys. *)
Definition dict_item {V : Type} (d : gmap string V) (k : string) : Res V :=
  match d !! k with
  | Some v => Ok v
  | None => Raise KeyError
  end.

Definition dict_get {V : Type} (d : gmap string V) (k : string) (dflt : V) : V :=
  default dflt (d !! k).

(** [l[i]] on a list, for a non-negative literal index. *)
Definition list_item {V : Type} (l : list V) (i : nat) : Res V :=
  match l !! i with
  | Some v => Ok v
  | None => Raise IndexError
  end.

(** [sum(l)]: the accumulator starts at 0 and the items are added from the
    left; adding [None] is a [TypeError]. *)
Fixpoint py_sum_from (acc : R) (l : list pyval) : Res R :=
  match l with
  | [] => Ok acc
  | PNum r :: t => py_sum_from (acc + r) t
  | PNone :: _ => Raise TypeError
  end.

Definition py_sum (l : list pyval) : Res R := py_sum_from 0 l.

(** [round(x, ndigits)] on a float: the nearest multiple of
    [10 ^ -ndigits], a tie going to the even one. *)
Definition round_half_even (x : R) : Z :=
  let f := Zfloor x in
  if Rlt_dec (x - IZR f) (1 / 2) then f
  else if Rlt_dec (1 / 2) (x - IZR f) then (f + 1)%Z
  else if Z.even f then f else (f + 1)%Z.

Definition py_round (x : R) (ndigits : nat) : R :=
  IZR (round_half_even (x * 10 ^ ndigits)) / 10 ^ ndigits.

(** [math.radians]. *)
Definition radians (x : R) : R := x * (PI / 180).

(** [x ** y] on floats, for a base [x >= 0] and an exponent [y >= 0]:
    [0.0 ** y] is [0.0] for [y > 0] and [1.0] for [y = 0], and a
    positive base gives [exp (y * ln x)]. (A negative base with a
    fractional exponent would give a complex number; [manning_base_nonneg]
    below shows the pipeline never forms one.) *)
Definition float_pow (x y : R) : R :=
  if Req_dec_T x 0 then (if Req_dec_T y 0 then 1 else 0) else Rpower x y.

(** [s.capitalize()] on an ASCII string: the first letter in upper case,
    the others in lower case. *)
Definition ascii_upper (c : ascii) : ascii :=
  let k := nat_of_ascii c in
  if (97 <=? k)%nat && (k <=? 122)%nat then ascii_of_nat (k - 32) else c.

Definition ascii_lower (c : ascii) : ascii :=
  let k := nat_of_ascii c in
  if (65 <=? k)%nat && (k <=? 90)%nat then ascii_of_nat (k + 32) else c.

Fixpoint string_lower (s : string) : string :=
  match s with
  | EmptyString => EmptyString
  | String c t => String (ascii_lower c) (string_lower t)
  end.

Definition capitalize (s : string) : string :=
  match s with
  | EmptyString => EmptyString
  | String c t => String (ascii_upper c) (string_lower t)
  end.

(** ** The external services *)

(** A coordinate dictionary [{"lat": ..., "lon": ...}]. *)
Record coord : Type := Coord { lat_of : pyval; lon_of : pyval }.

(** What the services answer during requests. Each field stands for the
    source lines up to and including the call that fetches the value
    ([getInfo()], [requests.get(...).json()]); Earth Engine builds its
    queries lazily, so a failure of any of the object constructions on
    those lines is a [Raise] of the field.
    - [ee_buffer lat lon radius]: line 82, the catchment geometry;
    - [ee_water_size lat lon max_dist]: lines 38-52,
      [water_vectors.size().getInfo()];
    - [ee_nearest_distance lat lon max_dist]: lines 57-58,
      [nearest.get('distance').getInfo()];
    - [ee_nearest_coords lat lon max_dist]: line 59, the [[lon, lat]] list;
    - [ee_reduce_region lat lon radius]: lines 88-95, the statistics
      dictionary;
    - [meteo_archive lat lon]: lines 68-70, the decoded archive answer. *)
Record Provider : Type := {
  ee_buffer : R -> R -> R -> Res unit;
  ee_water_size : R -> R -> R -> Res Z;
  ee_nearest_distance : R -> R -> R -> Res pyval;
  ee_nearest_coords : R -> R -> R -> Res (list pyval);
  ee_reduce_region : R -> R -> R -> Res (gmap string pyval);
  meteo_archive : R -> R -> Res (gmap string (gmap string (list pyval)))
}.

(** ** [find_nearest_water] (lines 32-63) *)

Definition municipal_label : string := "Belediye Şehir Hattı".
Definition natural_label : string := "Doğal Su Kütlesi (Dere/Deniz)".
Definition regional_label : string := "Bölgesel Tahliye Hattı".

Definition find_nearest_water_body (w : Provider) (lat lon max_dist : R)
  : Res (R * string * coord) :=
  size ← ee_water_size w lat lon max_dist;
  if decide (size = 0%Z) then
    Ok (500, municipal_label, Coord (PNum (lat - 0.004)) (PNum lon))
  else
    d ← ee_nearest_distance w lat lon max_dist;
    dist ← py_float d;
    coords ← ee_nearest_coords w lat lon max_dist;
    c1 ← list_item coords 1;
    c0 ← list_item coords 0;
    Ok (py_round dist 1, natural_label, Coord c1 c0).

Definition find_nearest_water (w : Provider) (lat lon max_dist : R)
  : Res (R * string * coord) :=
  try_except
    (find_nearest_water_body w lat lon max_dist)
    (Ok (350, regional_label, Coord (PNum (lat - 0.003)) (PNum lon))).

(** ** [get_rain_series] (lines 66-73) *)

Definition get_rain_series (w : Provider) (lat lon : R) : Res (list pyval) :=
  try_except
    (r ← meteo_archive w lat lon;
     Ok (dict_get (dict_get r "daily" ∅) "precipitation_sum" []))
    (Ok (repeat (PNum 50.0) 10)).

(** ** The sizing engine: the expressions of [analyze] (lines 97-128)

    Each definition is one assignment of the source, under the name of
    the variable it assigns. *)

(** Line 98. ([tan] is [sin / cos]; a mean terrain slope lies in
    [[0, 90)] degrees, where the cosine is positive.) *)
Definition slope_pct (slope_deg : R) : R := tan (radians slope_deg) * 100.

(** Line 103: [sum(rain_data) / 10 if rain_data else 600]. *)
Definition mean_rain (rain_data : list pyval) : Res R :=
  match rain_data with
  | [] => Ok 600
  | _ :: _ => s ← py_sum rain_data; Ok (s / 10)
  end.

(** Line 106. *)
Definition C (land_cls : Z) : R :=
  if decide (land_cls = 50%Z) then 0.85 else 0.40.

(** Line 107. *)
Definition area_ha (radius : R) : R := (PI * radius ^ 2) / 10000.

(** Lines 110-111. *)
Definition i_intensity : R := 65.

Definition Q_flow (land_cls : Z) (radius : R) : R :=
  (C land_cls * i_intensity * area_ha radius) / 360.

(** Lines 115-118. *)
Definition total_len (radius dist_to_water : R) : R := radius + dist_to_water.

Definition n : R := 0.013.

Definition S_metric (slope_pct : R) : R := Rmax 0.005 (slope_pct / 100).

(** The argument of the outer power on line 118. *)
Definition manning_base (Q S : R) : R :=
  (float_pow 4 (5 / 3) * n * Q) / (PI * sqrt S).

Definition D_mm (Q S : R) : R := float_pow (manning_base Q S) (3 / 8) * 1000.

(** Lines 121-122: [if total_len > 1000: D_mm *= 1.10]. *)
Definition D_mm_corrected (total_len D : R) : R :=
  if Rgt_dec total_len 1000 then D * 1.10 else D.

(** Lines 125-128. *)
Definition selected_system (slope_pct : R) (land_cls : Z) : string :=
  let selected_system := "dendritic" in
  if Rgt_dec slope_pct 12 then "meandering"
  else if decide (land_cls = 50%Z) then "reticular"
  else if Rlt_dec slope_pct 2 then "pinnate"
  else selected_system.

(** ** The [/analyze] endpoint (lines 76-158) *)

Module Response.

(** The ["discharge"] and ["plan_geometry"] objects and the body of a
    success answer. *)
Record discharge : Type := {
  distance_m : R;
  target : string;
  target_lat : pyval;
  target_lon : pyval;
  total_pipe_m : R
}.

Record plan_geometry : Type := {
  pipe_path : list coord;
  description : string
}.

Record body : Type := {
  system : string;
  q_flow : R;
  diameter_mm : R;
  slope_pct : R;
  discharge_of : discharge;
  plan_geometry_of : plan_geometry;
  harvest_m3 : R
}.

(** [{"status": "success", ...}] with HTTP status 200, or
    [{"status": "error", "msg": str(e)}] with HTTP status 500. *)
Inductive t : Type :=
  | Success (b : body)
  | Error (e : exn).

Definition status_code (r : t) : Z :=
  match r with
  | Success _ => 200
  | Error _ => 500
  end.

End Response.

(** Lines 106-155: the engine's results put into the answer. The
    arguments are the values the lookups of lines 80-103 left in [lat],
    [lon], [radius], the outlet triple, [slope_deg], [land_cls] and
    [mean_rain]. *)
Definition response_body (lat lon radius : R) (outlet : R * string * coord)
    (slope_deg : R) (land_cls : Z) (mean_rain : R) : Response.body :=
  let '(dist_to_water, water_source_name, target_coords) := outlet in
  let Q := Q_flow land_cls radius in
  let D := D_mm_corrected (total_len radius dist_to_water)
             (D_mm Q (S_metric (slope_pct slope_deg))) in
  let selected := selected_system (slope_pct slope_deg) land_cls in
  {|
    Response.system := selected;
    Response.q_flow := py_round Q 3;
    Response.diameter_mm := py_round D 0;
    Response.slope_pct := py_round (slope_pct slope_deg) 2;
    Response.discharge_of := {|
      Response.distance_m := dist_to_water;
      Response.target := water_source_name;
      Response.target_lat := lat_of target_coords;
      Response.target_lon := lon_of target_coords;
      Response.total_pipe_m := py_round (total_len radius dist_to_water) 1
    |};
    Response.plan_geometry_of := {|
      Response.pipe_path := [Coord (PNum lat) (PNum lon); target_coords];
      Response.description :=
        capitalize selected +:+ " desenli ana toplayıcı hattı."
    |};
    Response.harvest_m3 := py_round (area_ha radius * mean_rain * 0.7) 0
  |}.

(** The [try] block of [analyze], lines 79-155. *)
Definition analyze_body (w : Provider) (data : gmap string pyval)
  : Res Response.body :=
  lat_v ← dict_item data "lat";
  lat ← py_float lat_v;
  lon_v ← dict_item data "lon";
  lon ← py_float lon_v;
  radius ← py_float (dict_get data "radius" (PNum 250));
  _ ← ee_buffer w lat lon radius;
  outlet ← find_nearest_water w lat lon 2000;
  stats ← ee_reduce_region w lat lon radius;
  slope_deg ← py_float (dict_get stats "slope_mean" (PNum 2.0));
  land_cls ← py_int (dict_get stats "land_mode" (PNum 50));
  rain_data ← get_rain_series w lat lon;
  mean_rain ← mean_rain rain_data;
  Ok (response_body lat lon radius outlet slope_deg land_cls mean_rain).

(** [analyze]: the [except Exception] of lines 157-158 turns every
    exception of the block into the error answer. *)
Definition analyze (w : Provider) (data : gmap string pyval) : Response.t :=
  match analyze_body w data with
  | Ok b => Response.Success b
  | Raise e => Response.Error e
  end.

(** ** Names and sample inputs used in the statements *)

(** The four drainage patterns. *)
Definition patterns : list string :=
  ["dendritic"; "meandering"; "reticular"; "pinnate"].

(** A provider that answers the same whatever the coordinates: the
    catchment geometry builds, and the five lookups answer as given. *)
Definition const_provider
    (size : Res Z) (dist : Res pyval) (coords : Res (list pyval))
    (stats : Res (gmap string pyval))
    (meteo : Res (gmap string (gmap string (list pyval)))) : Provider :=
  {| ee_buffer := fun _ _ _ => Ok tt;
     ee_water_size := fun _ _ _ => size;
     ee_nearest_distance := fun _ _ _ => dist;
     ee_nearest_coords := fun _ _ _ => coords;
     ee_reduce_region := fun _ _ _ => stats;
     meteo_archive := fun _ _ => meteo |}.

(** The request [{"lat": 41.0, "lon": 29.0}] (the radius defaults to
    250) and the same with an explicit radius. *)
Definition request_41_29 : gmap string pyval :=
  <["lat" := PNum 41.0]> (<["lon" := PNum 29.0]> ∅).

Definition request_with_radius (radius : R) : gmap string pyval :=
  <["radius" := PNum radius]> request_41_29.

(** Terrain statistics of an urban catchment with a mean slope of two
    degrees. *)
Definition urban_stats : gmap string pyval :=
  <["slope_mean" := PNum 2.0]> (<["land_mode" := PNum 50]> ∅).

(** The sum of a series of numbers, as mathematics writes it. *)
Definition sum_R (series : list R) : R := foldr Rplus 0 series.

(** A provider whose terrain lookup times out while the other services
    answer: no water feature in reach, ten dry days of rainfall. *)
Definition terrain_timeout_provider : Provider :=
  const_provider (Ok 0%Z) (Raise EEException) (Raise EEException)
    (Raise EEException)
    (Ok (<["daily" := <["precipitation_sum" := repeat (PNum 0) 10]> ∅]> ∅)).

(** A provider whose terrain statistics carry no value at all, the
    other services answering as above. *)
Definition terrain_empty_provider : Provider :=
  const_provider (Ok 0%Z) (Raise EEException) (Raise EEException)
    (Ok ∅)
    (Ok (<["daily" := <["precipitation_sum" := repeat (PNum 0) 10]> ∅]> ∅)).

(** A provider for an urban catchment whose archive answer carries no
    precipitation data. *)
Definition no_rain_data_provider : Provider :=
  const_provider (Ok 0%Z) (Raise EEException) (Raise EEException)
    (Ok urban_stats) (Ok ∅).

(** ** [initialize_gee] (lines 18-29)

    The two calls of the start-up routine are external: what they answer
    is an [AuthEnv]. [auth_default] is [google.auth.default(scopes=...)],
    which gives the credentials and the project; [ee_initialize] is
    [ee.Initialize(credentials, project=project)]; [exn_str] is [str(e)].
    The routine's effect is what it prints: it returns the printed
    lines. *)
Record AuthEnv : Type := {
  auth_default : Res (string * string);
  ee_initialize : string -> string -> Res unit;
  exn_str : exn -> string
}.

(** [try: body except Exception as e: handler(e)]. *)
Definition try_except_as {A : Type} (body : Res A) (handler : exn -> Res A)
  : Res A :=
  match body with
  | Ok a => Ok a
  | Raise e => handler e
  end.

Definition gee_started_line : string := "✅ GEE Başlatıldı - v14.1".

Definition gee_error_line (msg : string) : string :=
  "❌ GEE Hatası: " +:+ msg
  +:+ ". 'earthengine authenticate' yapmanız gerekebilir.".

Definition initialize_gee (a : AuthEnv) : Res (list string) :=
  try_except_as
    ('(credentials, project) ← auth_default a;
     _ ← ee_initialize a credentials project;
     Ok [gee_started_line])
    (fun e => Ok [gee_error_line (exn_str a e)]).

(** The three outlet labels, and the sentences of the plan description. *)
Definition outlet_labels : list string :=
  [municipal_label; natural_label; regional_label].

Definition plan_descriptions : list (string * string) :=
  [("dendritic", "Dendritic desenli ana toplayıcı hattı.");
   ("meandering", "Meandering desenli ana toplayıcı hattı.");
   ("reticular", "Reticular desenli ana toplayıcı hattı.");
   ("pinnate", "Pinnate desenli ana toplayıcı hattı.")].

(** A start-up environment without credentials, and one that works. *)
Definition no_credentials_env : AuthEnv :=
  {| auth_default := Raise EEException;
     ee_initialize := fun _ _ => Ok tt;
     exn_str := fun _ => "no credentials" |}.

Definition working_env : AuthEnv :=
  {| auth_default := Ok ("credentials", "project");
     ee_initialize := fun _ _ => Ok tt;
     exn_str := fun _ => "no credentials" |}.

(** A provider whose archive request fails, over an urban catchment with
    no water feature in reach; one that finds features but cannot read
    the nearest one's distance; and one whose rainfall series has a gap. *)
Definition archive_down_provider : Provider :=
  const_provider (Ok 0%Z) (Raise EEException) (Raise EEException)
    (Ok urban_stats) (Raise RequestException).

Definition null_distance_provider : Provider :=
  const_provider (Ok 3%Z) (Ok PNone) (Ok [PNum 29.02; PNum 41.01])
    (Ok urban_stats) (Ok ∅).

Definition gap_series_provider : Provider :=
  const_provider (Ok 0%Z) (Raise EEException) (Raise EEException)
    (Ok urban_stats)
    (Ok (<["daily" := <["precipitation_sum" := [PNum 1.5; PNone; PNum 2]]> ∅]> ∅)).

(** * Properties *)

(** ** Real-number facts used below *)

Lemma PI_bounds : 3.1415 < PI < 3.1416.
Proof.
  pose proof (PI_2_3_7_ineq 2) as [Hlow Hup].
  unfold PI_2_3_7_tg, tg_alt, Ratan_seq in Hlow, Hup.
  cbn [sum_f_R0 Nat.mul Nat.add pow INR] in Hlow, Hup.
  split; lra.
Qed.

Lemma sin_cos_small (x : R) :
  0 <= x <= 1 ->
  x - x ^ 3 / 6 <= sin x <= x /\
  1 - x ^ 2 / 2 <= cos x <= 1 - x ^ 2 / 2 + x ^ 4 / 24.
Proof.
  intros [H0 H1].
  destruct (pre_sin_bound x 0) as [Hs _]; [lra | lra |].
  destruct (pre_cos_bound x 0) as [Hc Hc']; [lra | lra |].
  unfold sin_approx, sin_term in Hs.
  unfold cos_approx, cos_term in Hc, Hc'.
  cbn [sum_f_R0 Nat.mul Nat.add pow INR fact] in Hs, Hc, Hc'.
  assert (sin x <= x).
  { destruct (Req_dec x 0) as [-> | Hne].
    - rewrite sin_0; lra.
    - apply Rlt_le, sin_lt_x; lra. }
  repeat split; lra.
Qed.

(** The tangent of two degrees. *)
Lemma tan_2deg : 0.0349 < tan (radians 2.0) < 0.035.
Proof.
  pose proof PI_bounds as [Hl Hu].
  unfold radians.
  set (x := 2.0 * (PI / 180)).
  assert (Hx : 0.034905 < x < 0.034907) by (unfold x; lra).
  destruct (sin_cos_small x) as [[Hs1 Hs2] [Hc1 Hc2]]; [lra |].
  assert (Hx2 : 0.001218 < x ^ 2 < 0.001219) by nra.
  assert (Hx3 : x ^ 3 < 0.0000426) by nra.
  assert (Hx4 : x ^ 4 < 0.0000015) by nra.
  assert (Hc : 0.999 < cos x < 0.9994) by lra.
  unfold tan; split;
    (apply Rmult_lt_reg_r with (cos x); [lra |];
     unfold Rdiv; rewrite Rmult_assoc, Rinv_l by lra; lra).
Qed.

Lemma float_pow_pos (x y : R) : 0 < x -> float_pow x y = Rpower x y.
Proof.
  intros Hx. unfold float_pow.
  destruct (Req_dec_T x 0); [lra | reflexivity].
Qed.

Lemma float_pow_0 (y : R) : y <> 0 -> float_pow 0 y = 0.
Proof.
  intros Hy. unfold float_pow.
  destruct (Req_dec_T 0 0) as [_ | Hne]; [| contradiction].
  destruct (Req_dec_T y 0); [contradiction | reflexivity].
Qed.

Lemma float_pow_nonneg (x y : R) : 0 <= float_pow x y.
Proof.
  unfold float_pow.
  destruct (Req_dec_T x 0); [destruct (Req_dec_T y 0); lra |].
  unfold Rpower. apply Rlt_le, exp_pos.
Qed.

Lemma float_pow_mono (a b y : R) :
  0 < y -> 0 <= a <= b -> float_pow a y <= float_pow b y.
Proof.
  intros Hy [Ha Hab].
  destruct (Req_dec_T a 0) as [-> | Hne].
  - rewrite float_pow_0 by lra. apply float_pow_nonneg.
  - rewrite !float_pow_pos by lra.
    apply Rle_Rpower_l; lra.
Qed.

(** The power [3/8] through integer powers: [(x ** (3/8)) ^ 8 = x ^ 3]. *)
Lemma float_pow_3_8 (x : R) : 0 <= x -> float_pow x (3 / 8) ^ 8 = x ^ 3.
Proof.
  intros Hx.
  destruct (Req_dec_T x 0) as [-> | Hne].
  - rewrite float_pow_0 by lra. lra.
  - rewrite float_pow_pos by lra.
    rewrite <- (Rpower_pow 8) by (unfold Rpower; apply exp_pos).
    rewrite Rpower_mult.
    replace (3 / 8 * INR 8) with (INR 3) by (simpl; lra).
    apply Rpower_pow; lra.
Qed.

(** [(4 ** (5/3)) ^ 3 = 4 ^ 5 = 1024]. *)
Lemma four_pow_5_3 : float_pow 4 (5 / 3) ^ 3 = 1024.
Proof.
  rewrite float_pow_pos by lra.
  rewrite <- (Rpower_pow 3) by (unfold Rpower; apply exp_pos).
  rewrite Rpower_mult.
  replace (5 / 3 * INR 3) with (INR 5) by (simpl; lra).
  rewrite Rpower_pow by lra. lra.
Qed.

Lemma four_pow_5_3_pos : 0 < float_pow 4 (5 / 3).
Proof.
  rewrite float_pow_pos by lra. unfold Rpower. apply exp_pos.
Qed.

(** ** The runoff coefficient and the peak flow *)

Lemma C_cases (land_cls : Z) : C land_cls = 0.85 \/ C land_cls = 0.40.
Proof. unfold C. case_decide; [left | right]; reflexivity. Qed.

Lemma C_pos (land_cls : Z) : 0 < C land_cls.
Proof. destruct (C_cases land_cls) as [-> | ->]; lra. Qed.

Lemma area_ha_nonneg (radius : R) : 0 <= area_ha radius.
Proof.
  unfold area_ha. pose proof PI_RGT_0. pose proof (pow2_ge_0 radius). nra.
Qed.

Lemma Q_flow_nonneg (land_cls : Z) (radius : R) : 0 <= Q_flow land_cls radius.
Proof.
  unfold Q_flow, i_intensity.
  pose proof (C_pos land_cls). pose proof (area_ha_nonneg radius). nra.
Qed.

Lemma Q_flow_pos (land_cls : Z) (radius : R) :
  radius <> 0 -> 0 < Q_flow land_cls radius.
Proof.
  intros Hr. unfold Q_flow, i_intensity, area_ha.
  pose proof (C_pos land_cls). pose proof PI_RGT_0.
  assert (0 < radius ^ 2).
  { pose proof (Rsqr_pos_lt radius Hr) as Hsq. unfold Rsqr in Hsq. lra. }
  assert (Ha : 0 < PI * radius ^ 2) by (apply Rmult_lt_0_compat; lra).
  assert (0 < C land_cls * (PI * radius ^ 2)) by (apply Rmult_lt_0_compat; lra).
  lra.
Qed.

(** C1. The runoff coefficient is 0.85 for land class 50 and 0.40 for
    every other class; the peak flow is [(C * 65 * area_ha) / 360] with
    [area_ha = pi * radius^2 / 10000]; and for a radius above 0 the peak
    flow is not negative. *)
Theorem C1_rational_method (land_cls : Z) (radius : R) :
  0 < radius ->
  (land_cls = 50%Z -> C land_cls = 0.85) /\
  (land_cls <> 50%Z -> C land_cls = 0.40) /\
  area_ha radius = PI * radius ^ 2 / 10000 /\
  Q_flow land_cls radius = (C land_cls * 65 * area_ha radius) / 360 /\
  0 <= Q_flow land_cls radius.
Proof.
  intros _. repeat split.
  - intros ->. reflexivity.
  - intros Hne. unfold C. case_decide; [contradiction | reflexivity].
  - apply Q_flow_nonneg.
Qed.

Lemma C1_rational_method_witness :
  C 50 = 0.85 /\ C 10 = 0.40 /\ 0 <= Q_flow 50 250.
Proof.
  destruct (C1_rational_method 50 250) as (H50 & _ & _ & _ & HQ); [lra |].
  destruct (C1_rational_method 10 250) as (_ & H10 & _); [lra |].
  split; [apply H50; reflexivity |].
  split; [apply H10; lia | exact HQ].
Defined.

(** ** The Manning diameter *)

Lemma S_metric_floor (sp : R) : 0.005 <= S_metric sp.
Proof. unfold S_metric. apply Rmax_l. Qed.

Lemma sqrt_S_metric_pos (sp : R) : 0 < sqrt (S_metric sp).
Proof. apply sqrt_lt_R0. pose proof (S_metric_floor sp). lra. Qed.

Lemma manning_base_nonneg (Q S : R) : 0 <= Q -> 0 <= manning_base Q S.
Proof.
  intros HQ. unfold manning_base, n.
  pose proof four_pow_5_3_pos. pose proof PI_RGT_0.
  pose proof (sqrt_pos S).
  apply Rmult_le_pos; [nra |].
  destruct (Req_dec_T (PI * sqrt S) 0) as [-> | Hne].
  - rewrite Rinv_0. lra.
  - apply Rlt_le, Rinv_0_lt_compat. nra.
Qed.

(** The power on line 118 is always taken of a non-negative base: the
    peak flow the pipeline feeds it is never negative. *)
Lemma manning_base_of_pipeline (land_cls : Z) (radius S : R) :
  0 <= manning_base (Q_flow land_cls radius) S.
Proof. apply manning_base_nonneg, Q_flow_nonneg. Qed.

Lemma manning_base_mono (Q1 Q2 S : R) :
  Q1 <= Q2 -> manning_base Q1 S <= manning_base Q2 S.
Proof.
  intros HQ. unfold manning_base, n.
  pose proof four_pow_5_3_pos. pose proof PI_RGT_0.
  pose proof (sqrt_pos S).
  apply Rmult_le_compat_r; [| nra].
  destruct (Req_dec_T (PI * sqrt S) 0) as [-> | Hne].
  - rewrite Rinv_0. lra.
  - apply Rlt_le, Rinv_0_lt_compat. nra.
Qed.

Lemma D_mm_nonneg (Q S : R) : 0 <= D_mm Q S.
Proof.
  unfold D_mm. pose proof (float_pow_nonneg (manning_base Q S) (3 / 8)). lra.
Qed.

Lemma D_mm_0 (S : R) : D_mm 0 S = 0.
Proof.
  unfold D_mm, manning_base.
  replace (float_pow 4 (5 / 3) * n * 0 / (PI * sqrt S)) with 0
    by (unfold Rdiv; ring).
  rewrite float_pow_0 by lra. ring.
Qed.

Lemma D_mm_pos (Q S : R) : 0 < Q -> 0 < S -> 0 < D_mm Q S.
Proof.
  intros HQ HS. unfold D_mm.
  assert (Hb : 0 < manning_base Q S).
  { unfold manning_base, n.
    pose proof four_pow_5_3_pos. pose proof PI_RGT_0.
    pose proof (sqrt_lt_R0 S HS).
    apply Rdiv_lt_0_compat; nra. }
  rewrite float_pow_pos by exact Hb.
  assert (0 < Rpower (manning_base Q S) (3 / 8)) by (unfold Rpower; apply exp_pos).
  lra.
Qed.

(** C2. The uncorrected diameter is
    [((4^(5/3) * n * Q) / (pi * sqrt S))^(3/8) * 1000] with [n = 0.013],
    [S = max(0.005, slope_pct / 100)] and
    [slope_pct = tan(slope_deg in radians) * 100]; it is never negative
    for a flow [Q >= 0]. The power is pinned down without [Rpower] too:
    the eighth power of [D_mm / 1000], times the cube of [pi * sqrt S],
    is [1024 * n^3 * Q^3]. *)
Theorem C2_manning_diameter (Q slope_deg : R) :
  0 <= Q ->
  slope_pct slope_deg = tan (slope_deg * (PI / 180)) * 100 /\
  S_metric (slope_pct slope_deg) = Rmax 0.005 (slope_pct slope_deg / 100) /\
  0.005 <= S_metric (slope_pct slope_deg) /\
  n = 0.013 /\
  (0 < Q ->
   D_mm Q (S_metric (slope_pct slope_deg)) =
   Rpower ((Rpower 4 (5 / 3) * n * Q)
           / (PI * sqrt (S_metric (slope_pct slope_deg)))) (3 / 8) * 1000) /\
  (Q = 0 -> D_mm Q (S_metric (slope_pct slope_deg)) = 0) /\
  (D_mm Q (S_metric (slope_pct slope_deg)) / 1000) ^ 8
    * (PI * sqrt (S_metric (slope_pct slope_deg))) ^ 3
  = 1024 * n ^ 3 * Q ^ 3 /\
  0 <= D_mm Q (S_metric (slope_pct slope_deg)).
Proof.
  intros HQ.
  set (S := S_metric (slope_pct slope_deg)).
  assert (HS : 0 < sqrt S) by apply sqrt_S_metric_pos.
  pose proof PI_RGT_0 as Hpi.
  split; [reflexivity |].
  split; [reflexivity |].
  split; [apply S_metric_floor |].
  split; [reflexivity |].
  split.
  { intros HQpos. unfold D_mm.
    pose proof (D_mm_pos Q S HQpos) as _.
    assert (Hb : 0 < manning_base Q S).
    { unfold manning_base, n. pose proof four_pow_5_3_pos.
      apply Rdiv_lt_0_compat; nra. }
    rewrite float_pow_pos by exact Hb.
    unfold manning_base. rewrite (float_pow_pos 4) by lra. reflexivity. }
  split.
  { intros ->. apply D_mm_0. }
  split; [| apply D_mm_nonneg].
  unfold D_mm.
  replace (float_pow (manning_base Q S) (3 / 8) * 1000 / 1000)
    with (float_pow (manning_base Q S) (3 / 8)) by lra.
  rewrite float_pow_3_8 by (apply manning_base_nonneg; exact HQ).
  unfold manning_base.
  replace ((float_pow 4 (5 / 3) * n * Q / (PI * sqrt S)) ^ 3 * (PI * sqrt S) ^ 3)
    with (float_pow 4 (5 / 3) ^ 3 * n ^ 3 * Q ^ 3) by (field; nra).
  rewrite four_pow_5_3. reflexivity.
Qed.

Lemma C2_manning_diameter_witness :
  0.005 <= S_metric (slope_pct 2.0) /\ 0 <= D_mm 3 (S_metric (slope_pct 2.0)).
Proof.
  destruct (C2_manning_diameter 3 2.0) as (_ & _ & HS & _ & _ & _ & _ & HD);
    [lra |].
  split; [exact HS | exact HD].
Defined.

(** ** Monotonicity of the diameter in the flow *)

Lemma D_mm_mono (Q1 Q2 S : R) :
  0 <= Q1 -> Q1 <= Q2 -> D_mm Q1 S <= D_mm Q2 S.
Proof.
  intros H1 H12. unfold D_mm.
  apply Rmult_le_compat_r; [lra |].
  apply float_pow_mono; [lra |].
  split; [apply manning_base_nonneg; exact H1 |].
  apply manning_base_mono; exact H12.
Qed.

Lemma D_mm_corrected_mono (len D1 D2 : R) :
  D1 <= D2 -> D_mm_corrected len D1 <= D_mm_corrected len D2.
Proof.
  intros H. unfold D_mm_corrected.
  destruct (Rgt_dec len 1000); lra.
Qed.

(** C8. With the slope (so [S]) and the roughness fixed, the diameter
    does not decrease when the flow grows: for [0 <= Q1 <= Q2] the
    diameter for [Q1] is at most the one for [Q2], before the friction
    correction and, the total length being the same, after it. *)
Theorem C8_diameter_monotone (sp len Q1 Q2 : R) :
  0 <= Q1 -> 0 <= Q2 -> Q1 <= Q2 ->
  D_mm Q1 (S_metric sp) <= D_mm Q2 (S_metric sp) /\
  D_mm_corrected len (D_mm Q1 (S_metric sp))
    <= D_mm_corrected len (D_mm Q2 (S_metric sp)).
Proof.
  intros H1 _ H12.
  assert (H : D_mm Q1 (S_metric sp) <= D_mm Q2 (S_metric sp))
    by (apply D_mm_mono; assumption).
  split; [exact H | apply D_mm_corrected_mono; exact H].
Qed.

Lemma C8_diameter_monotone_witness :
  D_mm 1 (S_metric 3) <= D_mm 2 (S_metric 3) /\
  D_mm_corrected 1500 (D_mm 1 (S_metric 3))
    <= D_mm_corrected 1500 (D_mm 2 (S_metric 3)).
Proof. apply (C8_diameter_monotone 3 1500 1 2); lra. Defined.

(** ** The friction-length correction *)

Lemma D_mm_corrected_long (len D : R) :
  len > 1000 -> D_mm_corrected len D = 1.10 * D.
Proof.
  intros H. unfold D_mm_corrected.
  destruct (Rgt_dec len 1000); [lra | contradiction].
Qed.

Lemma D_mm_corrected_short (len D : R) :
  ~ len > 1000 -> D_mm_corrected len D = D.
Proof.
  intros H. unfold D_mm_corrected.
  destruct (Rgt_dec len 1000); [contradiction | reflexivity].
Qed.

(** A total length of exactly 1000 does not trigger the correction. *)
Lemma D_mm_corrected_at_1000 (D : R) : D_mm_corrected 1000 D = D.
Proof. apply D_mm_corrected_short. lra. Qed.

(** In the pipeline the uncorrected diameter is 0 exactly for a radius
    of 0. *)
Lemma D_mm_pipeline_zero (land_cls : Z) (radius sp : R) :
  D_mm (Q_flow land_cls radius) (S_metric sp) = 0 <-> radius = 0.
Proof.
  split.
  - intros HD. destruct (Req_dec_T radius 0) as [-> | Hne]; [reflexivity |].
    pose proof (D_mm_pos (Q_flow land_cls radius) (S_metric sp)
                  (Q_flow_pos land_cls radius Hne)) as Hpos.
    pose proof (S_metric_floor sp). lra.
  - intros ->.
    replace (Q_flow land_cls 0) with 0; [apply D_mm_0 |].
    unfold Q_flow, area_ha. unfold Rdiv. ring.
Qed.

(** For an uncorrected diameter other than 0 the final diameter tells
    whether the correction was applied. *)
Lemma D_mm_corrected_iff (len D : R) :
  D <> 0 -> (D_mm_corrected len D = 1.10 * D <-> len > 1000).
Proof.
  intros HD. split; [| apply D_mm_corrected_long].
  intros Heq. destruct (Rgt_dec len 1000) as [Hgt | Hle]; [exact Hgt |].
  rewrite D_mm_corrected_short in Heq by exact Hle. lra.
Qed.

(** C3. For a catchment (a radius above 0), whatever the land class, the
    slope and the distance to the outlet: the final diameter is 1.10
    times the uncorrected Manning diameter if and only if
    [radius + distance_to_water > 1000], and is the uncorrected diameter
    otherwise; the inequality is strict, so a total length of exactly
    1000 leaves the diameter uncorrected. *)
Theorem C3_friction_correction
    (land_cls : Z) (slope_deg radius dist_to_water : R) :
  0 < radius ->
  (D_mm_corrected (total_len radius dist_to_water)
     (D_mm (Q_flow land_cls radius) (S_metric (slope_pct slope_deg)))
   = 1.10 * D_mm (Q_flow land_cls radius) (S_metric (slope_pct slope_deg))
   <-> radius + dist_to_water > 1000) /\
  (~ radius + dist_to_water > 1000 ->
   D_mm_corrected (total_len radius dist_to_water)
     (D_mm (Q_flow land_cls radius) (S_metric (slope_pct slope_deg)))
   = D_mm (Q_flow land_cls radius) (S_metric (slope_pct slope_deg))) /\
  (radius + dist_to_water = 1000 ->
   D_mm_corrected (total_len radius dist_to_water)
     (D_mm (Q_flow land_cls radius) (S_metric (slope_pct slope_deg)))
   = D_mm (Q_flow land_cls radius) (S_metric (slope_pct slope_deg)) /\
   D_mm_corrected (total_len radius dist_to_water)
     (D_mm (Q_flow land_cls radius) (S_metric (slope_pct slope_deg)))
   <> 1.10 * D_mm (Q_flow land_cls radius) (S_metric (slope_pct slope_deg))).
Proof.
  intros Hr. unfold total_len.
  assert (HD : D_mm (Q_flow land_cls radius) (S_metric (slope_pct slope_deg))
               <> 0).
  { intros H0. apply D_mm_pipeline_zero in H0. lra. }
  split; [apply D_mm_corrected_iff; exact HD |].
  split; [apply D_mm_corrected_short |].
  intros Heq. split; [apply D_mm_corrected_short; lra |].
  intros H. apply (D_mm_corrected_iff _ _ HD) in H. lra.
Qed.

(** A radius of 600 with the outlet 500 m away is corrected; radii of
    250 and of 500 (a total of exactly 1000) are not. *)
Lemma C3_friction_correction_witness :
  D_mm_corrected (total_len 600 500)
    (D_mm (Q_flow 50 600) (S_metric (slope_pct 2.0)))
  = 1.10 * D_mm (Q_flow 50 600) (S_metric (slope_pct 2.0)) /\
  D_mm_corrected (total_len 250 500)
    (D_mm (Q_flow 50 250) (S_metric (slope_pct 2.0)))
  = D_mm (Q_flow 50 250) (S_metric (slope_pct 2.0)) /\
  D_mm_corrected (total_len 500 500)
    (D_mm (Q_flow 50 500) (S_metric (slope_pct 2.0)))
  <> 1.10 * D_mm (Q_flow 50 500) (S_metric (slope_pct 2.0)).
Proof.
  destruct (C3_friction_correction 50 2.0 600 500) as ([_ Hlong] & _ & _);
    [lra |].
  destruct (C3_friction_correction 50 2.0 250 500) as (_ & Hshort & _);
    [lra |].
  destruct (C3_friction_correction 50 2.0 500 500) as (_ & _ & Hedge);
    [lra |].
  split; [apply Hlong; lra |].
  split; [apply Hshort; lra |].
  apply Hedge. lra.
Defined.

(** ** Pattern classification *)

(** The decisions of the engine's conditionals, taken one by one. *)
Ltac decide_branches :=
  repeat match goal with
    | |- context [Rgt_dec ?a ?b] => destruct (Rgt_dec a b)
    | |- context [Rlt_dec ?a ?b] => destruct (Rlt_dec a b)
    | |- context [decide ?P] => destruct (decide P)
    end.

Lemma selected_system_in_patterns (sp : R) (land_cls : Z) :
  selected_system sp land_cls ∈ patterns.
Proof.
  unfold selected_system, patterns. decide_branches; set_solver.
Qed.

Lemma patterns_NoDup : NoDup patterns.
Proof. apply (bool_decide_unpack _). vm_compute. reflexivity. Qed.

(** C4. The classification is a function of [(slope_pct, land_class)]
    whose value is always one of the four pattern names, which are
    pairwise different, and the first matching rule wins:
    [slope_pct > 12] gives meandering; else [land_class = 50] gives
    reticular; else [slope_pct < 2] gives pinnate; else dendritic. *)
Theorem C4_pattern_classification (sp : R) (land_cls : Z) :
  selected_system sp land_cls ∈ patterns /\
  NoDup patterns /\
  (sp > 12 -> selected_system sp land_cls = "meandering") /\
  (~ sp > 12 -> land_cls = 50%Z ->
   selected_system sp land_cls = "reticular") /\
  (~ sp > 12 -> land_cls <> 50%Z -> sp < 2 ->
   selected_system sp land_cls = "pinnate") /\
  (~ sp > 12 -> land_cls <> 50%Z -> ~ sp < 2 ->
   selected_system sp land_cls = "dendritic").
Proof.
  split; [apply selected_system_in_patterns |].
  split; [apply patterns_NoDup |].
  unfold selected_system.
  repeat split; intros; decide_branches;
    first [reflexivity | contradiction | lra].
Qed.

(** The rules overlap and the order decides: a steep urban catchment is
    meandering, a flat urban one reticular, a flat natural one pinnate. *)
Lemma C4_pattern_classification_witness :
  selected_system 15 50 = "meandering" /\
  selected_system 1 50 = "reticular" /\
  selected_system 1 10 = "pinnate" /\
  selected_system 5 10 = "dendritic".
Proof.
  split; [apply (C4_pattern_classification 15 50); lra |].
  split; [apply (C4_pattern_classification 1 50); [lra | reflexivity] |].
  split; [apply (C4_pattern_classification 1 10); [lra | lia | lra] |].
  apply (C4_pattern_classification 5 10); [lra | lia | lra].
Defined.

(** ** Rounding *)

Lemma round_half_even_near (x : R) (k : Z) :
  IZR k - 1 / 2 < x < IZR k + 1 / 2 -> round_half_even x = k.
Proof.
  intros [Hlo Hhi]. unfold round_half_even.
  pose proof (Zfloor_bound x) as [Hf1 Hf2].
  assert (Hk : Zfloor x = k \/ Zfloor x = (k - 1)%Z).
  { assert (IZR (Zfloor x) < IZR (k + 1)) by (rewrite plus_IZR; lra).
    assert (IZR (k - 2) < IZR (Zfloor x) ) by (rewrite minus_IZR; lra).
    apply lt_IZR in H, H0. lia. }
  destruct Hk as [Hk | Hk]; rewrite Hk in *.
  - destruct (Rlt_dec (x - IZR k) (1 / 2)); [reflexivity | lra].
  - rewrite minus_IZR in *.
    destruct (Rlt_dec (x - (IZR k - 1)) (1 / 2)); [lra |].
    destruct (Rlt_dec (1 / 2) (x - (IZR k - 1))); [lia | lra].
Qed.

Lemma round_half_even_close (x : R) :
  Rabs (IZR (round_half_even x) - x) <= 1 / 2.
Proof.
  unfold round_half_even.
  pose proof (Zfloor_bound x) as [Hf1 Hf2].
  destruct (Rlt_dec (x - IZR (Zfloor x)) (1 / 2)) as [Hlt | Hge].
  - apply Rabs_le. lra.
  - destruct (Rlt_dec (1 / 2) (x - IZR (Zfloor x))) as [Hgt | Hle].
    + rewrite plus_IZR. apply Rabs_le. lra.
    + destruct (Z.even (Zfloor x)).
      * apply Rabs_le. lra.
      * rewrite plus_IZR. apply Rabs_le. lra.
Qed.

(** [round(x, ndigits)] is a multiple of [10 ^ -ndigits] within half a
    unit of the last digit of [x]. *)
Lemma py_round_close (x : R) (ndigits : nat) :
  Rabs (py_round x ndigits - x) <= 1 / 2 / 10 ^ ndigits.
Proof.
  unfold py_round.
  assert (Hp : 0 < 10 ^ ndigits) by (apply pow_lt; lra).
  pose proof (round_half_even_close (x * 10 ^ ndigits)) as Hc.
  replace (IZR (round_half_even (x * 10 ^ ndigits)) / 10 ^ ndigits - x)
    with ((IZR (round_half_even (x * 10 ^ ndigits)) - x * 10 ^ ndigits)
          / 10 ^ ndigits) by (field; lra).
  unfold Rdiv at 1. rewrite Rabs_mult.
  rewrite (Rabs_pos_eq (/ 10 ^ ndigits))
    by (apply Rlt_le, Rinv_0_lt_compat; exact Hp).
  unfold Rdiv. apply Rmult_le_compat_r;
    [apply Rlt_le, Rinv_0_lt_compat; exact Hp | lra].
Qed.

Lemma py_round_near (x : R) (ndigits : nat) (k : Z) :
  IZR k - 1 / 2 < x * 10 ^ ndigits < IZR k + 1 / 2 ->
  py_round x ndigits = IZR k / 10 ^ ndigits.
Proof.
  intros H. unfold py_round. rewrite (round_half_even_near _ k H). reflexivity.
Qed.

(** ** The water-outlet locator *)

(** The three ways the guarded block of [find_nearest_water] can end. *)
Lemma find_nearest_water_body_cases (w : Provider) (lat lon max_dist : R) :
  ee_water_size w lat lon max_dist = Ok 0%Z \/
  (exists e, find_nearest_water_body w lat lon max_dist = Raise e) \/
  (exists size dist c0 c1 rest,
     ee_water_size w lat lon max_dist = Ok size /\ size <> 0%Z /\
     ee_nearest_distance w lat lon max_dist = Ok (PNum dist) /\
     ee_nearest_coords w lat lon max_dist = Ok (c0 :: c1 :: rest)).
Proof.
  unfold find_nearest_water_body.
  destruct (ee_water_size w lat lon max_dist) as [size | e]; cbn;
    [| right; left; eauto].
  case_decide as Hsize; [left; subst; reflexivity | right].
  destruct (ee_nearest_distance w lat lon max_dist) as [[| dist] | e]; cbn;
    [left; eauto | | left; eauto].
  destruct (ee_nearest_coords w lat lon max_dist) as [coords | e]; cbn;
    [| left; eauto].
  destruct coords as [| c0 [| c1 rest]]; cbn; [left; eauto | left; eauto |].
  right. exists size, dist, c0, c1, rest. auto.
Qed.

Lemma find_nearest_water_found (w : Provider) (lat lon max_dist : R)
    (size : Z) (dist : R) (c0 c1 : pyval) (rest : list pyval) :
  ee_water_size w lat lon max_dist = Ok size -> size <> 0%Z ->
  ee_nearest_distance w lat lon max_dist = Ok (PNum dist) ->
  ee_nearest_coords w lat lon max_dist = Ok (c0 :: c1 :: rest) ->
  find_nearest_water w lat lon max_dist
  = Ok (py_round dist 1, natural_label, Coord c1 c0).
Proof.
  intros Hs Hne Hd Hc. unfold find_nearest_water, find_nearest_water_body.
  rewrite Hs; cbn. case_decide; [contradiction |].
  rewrite Hd; cbn. rewrite Hc; cbn. reflexivity.
Qed.

Lemma find_nearest_water_returns (w : Provider) (lat lon max_dist : R) :
  exists r, find_nearest_water w lat lon max_dist = Ok r.
Proof.
  unfold find_nearest_water.
  destruct (find_nearest_water_body w lat lon max_dist) as [r | e]; cbn; eauto.
Qed.

(** C5. [find_nearest_water] never raises: for every coordinate it
    returns a result, by one of three paths. With no water feature in
    the region it returns distance 500, the municipal-line label and the
    centre moved 0.004 degrees south; when anything in its block raises
    it returns distance 350, the regional-line label and the centre
    moved 0.003 degrees south; otherwise it returns the distance of the
    nearest feature rounded to one decimal, the natural-water label and
    the feature's coordinate. One of the three cases always applies. *)
Theorem C5_find_nearest_water_total (w : Provider) (lat lon max_dist : R) :
  (exists r, find_nearest_water w lat lon max_dist = Ok r) /\
  (ee_water_size w lat lon max_dist = Ok 0%Z ->
   find_nearest_water w lat lon max_dist
   = Ok (500, "Belediye Şehir Hattı",
         Coord (PNum (lat - 0.004)) (PNum lon))) /\
  (forall e, find_nearest_water_body w lat lon max_dist = Raise e ->
   find_nearest_water w lat lon max_dist
   = Ok (350, "Bölgesel Tahliye Hattı",
         Coord (PNum (lat - 0.003)) (PNum lon))) /\
  (forall size dist c0 c1 rest,
   ee_water_size w lat lon max_dist = Ok size -> size <> 0%Z ->
   ee_nearest_distance w lat lon max_dist = Ok (PNum dist) ->
   ee_nearest_coords w lat lon max_dist = Ok (c0 :: c1 :: rest) ->
   find_nearest_water w lat lon max_dist
   = Ok (py_round dist 1, "Doğal Su Kütlesi (Dere/Deniz)", Coord c1 c0)) /\
  (ee_water_size w lat lon max_dist = Ok 0%Z \/
   (exists e, find_nearest_water_body w lat lon max_dist = Raise e) \/
   (exists size dist c0 c1 rest,
      ee_water_size w lat lon max_dist = Ok size /\ size <> 0%Z /\
      ee_nearest_distance w lat lon max_dist = Ok (PNum dist) /\
      ee_nearest_coords w lat lon max_dist = Ok (c0 :: c1 :: rest))).
Proof.
  split; [apply find_nearest_water_returns |].
  split.
  { intros Hs. unfold find_nearest_water, find_nearest_water_body.
    rewrite Hs; cbn. reflexivity. }
  split.
  { intros e He. unfold find_nearest_water. rewrite He. reflexivity. }
  split.
  { intros size dist c0 c1 rest. apply find_nearest_water_found. }
  apply find_nearest_water_body_cases.
Qed.

(** The three paths on sample providers: no water feature; Earth Engine
    unreachable; a feature 123.44 m away at (41.01, 29.02). *)
Lemma C5_find_nearest_water_total_witness :
  find_nearest_water
    (const_provider (Ok 0%Z) (Raise EEException) (Raise EEException)
       (Ok ∅) (Ok ∅)) 41.0 29.0 2000
  = Ok (500, "Belediye Şehir Hattı", Coord (PNum (41.0 - 0.004)) (PNum 29.0)) /\
  find_nearest_water
    (const_provider (Raise EEException) (Raise EEException)
       (Raise EEException) (Ok ∅) (Ok ∅)) 41.0 29.0 2000
  = Ok (350, "Bölgesel Tahliye Hattı", Coord (PNum (41.0 - 0.003)) (PNum 29.0)) /\
  find_nearest_water
    (const_provider (Ok 7%Z) (Ok (PNum 123.44))
       (Ok [PNum 29.02; PNum 41.01]) (Ok ∅) (Ok ∅)) 41.0 29.0 2000
  = Ok (py_round 123.44 1, "Doğal Su Kütlesi (Dere/Deniz)",
        Coord (PNum 41.01) (PNum 29.02)).
Proof.
  split; [| split].
  - apply (C5_find_nearest_water_total
             (const_provider (Ok 0%Z) (Raise EEException) (Raise EEException)
                (Ok ∅) (Ok ∅)) 41.0 29.0 2000).
    reflexivity.
  - apply (C5_find_nearest_water_total
             (const_provider (Raise EEException) (Raise EEException)
                (Raise EEException) (Ok ∅) (Ok ∅)) 41.0 29.0 2000)
      with (e := EEException).
    reflexivity.
  - apply (C5_find_nearest_water_total
             (const_provider (Ok 7%Z) (Ok (PNum 123.44))
                (Ok [PNum 29.02; PNum 41.01]) (Ok ∅) (Ok ∅)) 41.0 29.0 2000)
      with (size := 7%Z) (rest := []); [reflexivity | lia | reflexivity | reflexivity].
Defined.

Lemma py_round_sample : py_round 123.44 1 = 123.4.
Proof.
  rewrite (py_round_near 123.44 1 1234) by (simpl; lra). simpl. lra.
Qed.

(** ** The rainfall series and its mean *)

Lemma get_rain_series_total (w : Provider) (lat lon : R) :
  exists series, get_rain_series w lat lon = Ok series.
Proof.
  unfold get_rain_series.
  destruct (meteo_archive w lat lon) as [r | e]; cbn; eauto.
Qed.

Lemma get_rain_series_fallback (w : Provider) (lat lon : R) (e : exn) :
  meteo_archive w lat lon = Raise e ->
  get_rain_series w lat lon = Ok (repeat (PNum 50.0) 10).
Proof. intros H. unfold get_rain_series. rewrite H. reflexivity. Qed.

(** An archive answer without a ["daily"] object, or whose ["daily"]
    object has no ["precipitation_sum"], gives the empty series. *)
Lemma get_rain_series_no_data (w : Provider) (lat lon : R)
    (r : gmap string (gmap string (list pyval))) :
  meteo_archive w lat lon = Ok r ->
  r !! "daily" = None \/
  (exists daily, r !! "daily" = Some daily /\
                 daily !! "precipitation_sum" = None) ->
  get_rain_series w lat lon = Ok [].
Proof.
  intros Hr Hk. unfold get_rain_series, dict_get. rewrite Hr; cbn.
  destruct Hk as [-> | (daily & -> & Hd)]; cbn.
  - rewrite lookup_empty. reflexivity.
  - rewrite Hd. reflexivity.
Qed.

Lemma py_sum_from_numbers (series : list R) (acc : R) :
  py_sum_from acc (PNum <$> series) = Ok (acc + sum_R series).
Proof.
  revert acc. induction series as [| r t IH]; intros acc; cbn.
  - f_equal. lra.
  - rewrite IH. f_equal. unfold sum_R. cbn. lra.
Qed.

Lemma py_sum_numbers (series : list R) :
  py_sum (PNum <$> series) = Ok (sum_R series).
Proof.
  unfold py_sum. rewrite py_sum_from_numbers. f_equal. lra.
Qed.

(** A [None] in the series makes the sum raise. *)
Lemma py_sum_from_none (l1 l2 : list pyval) (acc : R) :
  Forall (fun v => v <> PNone) l1 ->
  py_sum_from acc (l1 ++ PNone :: l2) = Raise TypeError.
Proof.
  revert acc. induction l1 as [| [| r] t IH]; intros acc Hl1; cbn.
  - reflexivity.
  - inversion Hl1; subst. contradiction.
  - apply IH. inversion Hl1; subst. assumption.
Qed.

Lemma mean_rain_empty : mean_rain [] = Ok 600.
Proof. reflexivity. Qed.

Lemma mean_rain_numbers (series : list R) :
  series <> [] ->
  mean_rain (PNum <$> series) = Ok (sum_R series / 10).
Proof.
  intros Hne. destruct series as [| r t]; [contradiction |].
  unfold mean_rain.
  change (PNum <$> r :: t) with (PNum r :: (PNum <$> t)).
  change (PNum r :: (PNum <$> t)) with (PNum <$> r :: t).
  rewrite py_sum_numbers. reflexivity.
Qed.

(** C6, as the code has it. For every non-empty series of numbers the
    mean used downstream is [sum(series) / 10]: the divisor is 10
    whatever the length of the series. (The empty series is the
    exception: its mean is 600.) *)
Theorem C6_mean_rain_fixed_divisor (series : list R) :
  series <> [] ->
  mean_rain (PNum <$> series) = Ok (sum_R series / 10).
Proof.
  apply mean_rain_numbers.
Qed.

(** Three days of 10, 20 and 30 mm have the mean 6, not 20. *)
Lemma C6_mean_rain_fixed_divisor_witness :
  mean_rain (PNum <$> [10; 20; 30]) = Ok (sum_R [10; 20; 30] / 10) /\
  sum_R [10; 20; 30] / 10 = 6.
Proof.
  split.
  - apply (C6_mean_rain_fixed_divisor [10; 20; 30]). discriminate.
  - unfold sum_R. cbn. lra.
Defined.

(** The series that replaces a failed archive request, ten days of
    50.0 mm, has the mean 50. *)
Lemma fallback_series_mean (w : Provider) (lat lon : R) (e : exn) :
  meteo_archive w lat lon = Raise e ->
  exists series, get_rain_series w lat lon = Ok series /\
                 mean_rain series = Ok 50.
Proof.
  intros H. exists (repeat (PNum 50.0) 10).
  split; [apply (get_rain_series_fallback w lat lon e H) |].
  change (repeat (PNum 50.0) 10) with (PNum <$> repeat 50.0 10).
  rewrite mean_rain_numbers by discriminate.
  f_equal. unfold sum_R. cbn. lra.
Qed.

(** C6 as stated fails for the empty series, which the archive gives
    when its answer carries no precipitation data: the sum is 0, so
    [sum(series) / 10] is 0, and the mean used is 600. *)
Lemma C6_empty_series_counterexample :
  get_rain_series no_rain_data_provider 41.0 29.0 = Ok [] /\
  py_sum [] = Ok 0 /\
  mean_rain [] = Ok 600 /\
  600 <> 0 / 10.
Proof.
  split; [| split; [| split]]; try reflexivity.
  lra.
Qed.

(** ** The endpoint *)

Lemma py_int_50 : py_int (PNum 50) = Ok 50%Z.
Proof.
  cbn. destruct (Rle_dec 0 50); [| lra].
  f_equal. apply ZfloorZ.
Qed.

(** Every success answer is [response_body] at values the lookups
    gave. *)
Lemma analyze_success_inv (w : Provider) (data : gmap string pyval)
    (b : Response.body) :
  analyze w data = Response.Success b ->
  exists lat lon radius outlet stats slope_deg land_cls rain_data mr,
    data !! "lat" = Some (PNum lat) /\
    data !! "lon" = Some (PNum lon) /\
    dict_get data "radius" (PNum 250) = PNum radius /\
    find_nearest_water w lat lon 2000 = Ok outlet /\
    ee_reduce_region w lat lon radius = Ok stats /\
    dict_get stats "slope_mean" (PNum 2.0) = PNum slope_deg /\
    py_int (dict_get stats "land_mode" (PNum 50)) = Ok land_cls /\
    get_rain_series w lat lon = Ok rain_data /\
    mean_rain rain_data = Ok mr /\
    b = response_body lat lon radius outlet slope_deg land_cls mr.
Proof.
  unfold analyze, analyze_body, dict_item. intros H.
  destruct (data !! "lat") as [[| lat] |] eqn:Hlat; cbn in H; try discriminate.
  destruct (data !! "lon") as [[| lon] |] eqn:Hlon; cbn in H; try discriminate.
  destruct (dict_get data "radius" (PNum 250)) as [| radius] eqn:Hrad;
    cbn in H; try discriminate.
  destruct (ee_buffer w lat lon radius) as [[] | e]; cbn in H;
    try discriminate.
  destruct (find_nearest_water w lat lon 2000) as [outlet | e] eqn:Hw;
    cbn in H; try discriminate.
  destruct (ee_reduce_region w lat lon radius) as [stats | e] eqn:Hst;
    cbn in H; try discriminate.
  destruct (dict_get stats "slope_mean" (PNum 2.0)) as [| slope_deg] eqn:Hsl;
    cbn in H; try discriminate.
  destruct (py_int (dict_get stats "land_mode" (PNum 50)))
    as [land_cls | e] eqn:Hland; cbn in H; try discriminate.
  destruct (get_rain_series w lat lon) as [rain_data | e] eqn:Hrain;
    cbn in H; try discriminate.
  destruct (mean_rain rain_data) as [mr | e] eqn:Hmr; cbn in H;
    try discriminate.
  inversion H; subst b.
  exists lat, lon, radius, outlet, stats, slope_deg, land_cls, rain_data, mr.
  repeat split; assumption || reflexivity.
Qed.

(** What a success answer reports is what the engine computed. *)
Lemma analyze_success_fields (w : Provider) (data : gmap string pyval)
    (b : Response.body) :
  analyze w data = Response.Success b ->
  exists radius dist_to_water slope_deg land_cls,
    Response.system b = selected_system (slope_pct slope_deg) land_cls /\
    Response.q_flow b = py_round (Q_flow land_cls radius) 3 /\
    Response.diameter_mm b =
      py_round (D_mm_corrected (total_len radius dist_to_water)
                  (D_mm (Q_flow land_cls radius)
                     (S_metric (slope_pct slope_deg)))) 0 /\
    Response.distance_m (Response.discharge_of b) = dist_to_water.
Proof.
  intros H. apply analyze_success_inv in H
    as (lat & lon & radius & [[dist label] tgt] & stats & slope_deg & land_cls
        & rain & mr & _ & _ & _ & _ & _ & _ & _ & _ & _ & ->).
  exists radius, dist, slope_deg, land_cls. cbn. auto.
Qed.

(** The pattern of every success answer is one of the four. *)
Lemma analyze_system_in_patterns (w : Provider) (data : gmap string pyval)
    (b : Response.body) :
  analyze w data = Response.Success b -> Response.system b ∈ patterns.
Proof.
  intros H. apply analyze_success_fields in H
    as (radius & dist & slope_deg & land_cls & -> & _).
  apply selected_system_in_patterns.
Qed.

(** An answer is a success exactly when its status is 200. *)
Lemma status_code_success (r : Response.t) :
  Response.status_code r = 200%Z <-> exists b, r = Response.Success b.
Proof.
  destruct r as [b | e]; cbn; split.
  - eauto.
  - reflexivity.
  - discriminate.
  - intros [b Hb]. discriminate.
Qed.

(** ** Terrain statistics: defaults *)

Lemma terrain_default_slope (stats : gmap string pyval) :
  stats !! "slope_mean" = None ->
  py_float (dict_get stats "slope_mean" (PNum 2.0)) = Ok 2.0.
Proof. intros H. unfold dict_get. rewrite H. reflexivity. Qed.

Lemma terrain_default_land (stats : gmap string pyval) :
  stats !! "land_mode" = None ->
  py_int (dict_get stats "land_mode" (PNum 50)) = Ok 50%Z.
Proof. intros H. unfold dict_get. rewrite H. apply py_int_50. Qed.

(** A statistic that is present but [None] (a JSON [null]) is not
    replaced by the default: the conversion raises. *)
Lemma terrain_null_slope (stats : gmap string pyval) :
  stats !! "slope_mean" = Some PNone ->
  py_float (dict_get stats "slope_mean" (PNum 2.0)) = Raise TypeError.
Proof. intros H. unfold dict_get. rewrite H. reflexivity. Qed.

(** *** Requests that reach the terrain lookup

    The coordinates and the radius are numbers and the catchment
    geometry builds: the request gets as far as line 92. *)
Section ReachesTerrain.

Variables (w : Provider) (data : gmap string pyval) (lat lon radius : R).

Hypothesis Hlat : data !! "lat" = Some (PNum lat).
Hypothesis Hlon : data !! "lon" = Some (PNum lon).
Hypothesis Hrad : dict_get data "radius" (PNum 250) = PNum radius.
Hypothesis Hbuf : ee_buffer w lat lon radius = Ok tt.

(** From there the answer is decided by the statistics and the
    rainfall series. *)
Lemma analyze_body_from_terrain (outlet : R * string * coord) :
  find_nearest_water w lat lon 2000 = Ok outlet ->
  analyze_body w data =
    (stats ← ee_reduce_region w lat lon radius;
     slope_deg ← py_float (dict_get stats "slope_mean" (PNum 2.0));
     land_cls ← py_int (dict_get stats "land_mode" (PNum 50));
     rain_data ← get_rain_series w lat lon;
     mean_rain ← mean_rain rain_data;
     Ok (response_body lat lon radius outlet slope_deg land_cls mean_rain)).
Proof.
  intros Hwater.
  unfold analyze_body, dict_item.
  rewrite Hlat; cbn. rewrite Hlon; cbn. rewrite Hrad; cbn.
  rewrite Hbuf; cbn. rewrite Hwater; cbn. reflexivity.
Qed.

(** C10. When the rainfall series is empty (the archive answered, with
    no precipitation data), the mean is the constant 600 and not
    [sum(series) / 10 = 0], so the answer's [harvest_m3] is
    [round(area_ha * 600 * 0.7)]. *)
Theorem C10_empty_series_harvest (stats : gmap string pyval)
    (slope_deg : R) (land_cls : Z) :
  ee_reduce_region w lat lon radius = Ok stats ->
  py_float (dict_get stats "slope_mean" (PNum 2.0)) = Ok slope_deg ->
  py_int (dict_get stats "land_mode" (PNum 50)) = Ok land_cls ->
  get_rain_series w lat lon = Ok [] ->
  mean_rain [] = Ok 600 /\
  py_sum [] = Ok 0 /\
  exists b, analyze w data = Response.Success b /\
            Response.harvest_m3 b = py_round (area_ha radius * 600 * 0.7) 0.
Proof.
  intros Hst Hsl Hland Hrain.
  split; [reflexivity |]. split; [reflexivity |].
  destruct (find_nearest_water_returns w lat lon 2000) as [outlet Hw].
  unfold analyze.
  rewrite (analyze_body_from_terrain outlet Hw).
  rewrite Hst; cbn. rewrite Hsl; cbn. rewrite Hland; cbn.
  rewrite Hrain; cbn.
  eexists. split; [reflexivity |].
  destruct outlet as [[dist label] tgt]. reflexivity.
Qed.

(** What the terrain lookup's answer does to the request. Statistics
    without a ["slope_mean"] and a ["land_mode"] entry are replaced by
    the defaults 2.0 and 50, and the request then succeeds with the
    answer computed from them. A lookup that raises, or a ["slope_mean"]
    that is present but [None], ends the request in the error answer. *)
Lemma terrain_lookup_outcomes (outlet : R * string * coord)
    (rain_data : list pyval) (mr : R) :
  find_nearest_water w lat lon 2000 = Ok outlet ->
  get_rain_series w lat lon = Ok rain_data ->
  mean_rain rain_data = Ok mr ->
  (forall stats,
     ee_reduce_region w lat lon radius = Ok stats ->
     stats !! "slope_mean" = None -> stats !! "land_mode" = None ->
     analyze w data
     = Response.Success (response_body lat lon radius outlet 2.0 50 mr)) /\
  (forall e,
     ee_reduce_region w lat lon radius = Raise e ->
     analyze w data = Response.Error e /\
     Response.status_code (analyze w data) = 500%Z) /\
  (forall stats,
     ee_reduce_region w lat lon radius = Ok stats ->
     stats !! "slope_mean" = Some PNone ->
     analyze w data = Response.Error TypeError /\
     Response.status_code (analyze w data) = 500%Z).
Proof.
  intros Hwater Hrain Hmr.
  unfold analyze.
  rewrite (analyze_body_from_terrain outlet Hwater).
  split; [| split].
  - intros stats Hst Hs Hl. rewrite Hst; cbn.
    rewrite (terrain_default_slope stats Hs); cbn.
    rewrite (terrain_default_land stats Hl); cbn.
    rewrite Hrain; cbn. rewrite Hmr; cbn. reflexivity.
  - intros e He. rewrite He; cbn. split; reflexivity.
  - intros stats Hst Hs. rewrite Hst; cbn.
    rewrite (terrain_null_slope stats Hs); cbn. split; reflexivity.
Qed.

End ReachesTerrain.

(** *** The sample request and providers *)

Lemma request_41_29_lat : request_41_29 !! "lat" = Some (PNum 41.0).
Proof. unfold request_41_29. by simplify_map_eq. Qed.

Lemma request_41_29_lon : request_41_29 !! "lon" = Some (PNum 29.0).
Proof. unfold request_41_29. by simplify_map_eq. Qed.

Lemma request_41_29_radius :
  dict_get request_41_29 "radius" (PNum 250) = PNum 250.
Proof. unfold dict_get, request_41_29. by simplify_map_eq. Qed.

Lemma urban_stats_slope :
  py_float (dict_get urban_stats "slope_mean" (PNum 2.0)) = Ok 2.0.
Proof. unfold dict_get, urban_stats. by simplify_map_eq. Qed.

Lemma urban_stats_land :
  py_int (dict_get urban_stats "land_mode" (PNum 50)) = Ok 50%Z.
Proof.
  unfold dict_get, urban_stats. simplify_map_eq. apply py_int_50.
Qed.

Lemma dry_days_mean : mean_rain (repeat (PNum 0) 10) = Ok 0.
Proof.
  change (repeat (PNum 0) 10) with (PNum <$> repeat 0 10).
  rewrite mean_rain_numbers by discriminate.
  f_equal. unfold sum_R. cbn. lra.
Qed.

Lemma C10_empty_series_harvest_witness :
  mean_rain [] = Ok 600 /\
  py_sum [] = Ok 0 /\
  exists b, analyze no_rain_data_provider request_41_29 = Response.Success b /\
            Response.harvest_m3 b = py_round (area_ha 250 * 600 * 0.7) 0.
Proof.
  apply (C10_empty_series_harvest no_rain_data_provider request_41_29
           41.0 29.0 250
           request_41_29_lat request_41_29_lon request_41_29_radius eq_refl
           urban_stats 2.0 50).
  - reflexivity.
  - exact urban_stats_slope.
  - exact urban_stats_land.
  - reflexivity.
Defined.

(** Statistics without any entry: the request for (41.0, 29.0) succeeds
    with the answer for a slope of 2.0 degrees and land class 50. *)
Lemma terrain_empty_sample :
  analyze terrain_empty_provider request_41_29
  = Response.Success
      (response_body 41.0 29.0 250
         (500, municipal_label, Coord (PNum (41.0 - 0.004)) (PNum 29.0))
         2.0 50 0).
Proof.
  apply (terrain_lookup_outcomes terrain_empty_provider request_41_29
           41.0 29.0 250
           request_41_29_lat request_41_29_lon request_41_29_radius eq_refl
           (500, municipal_label, Coord (PNum (41.0 - 0.004)) (PNum 29.0))
           (repeat (PNum 0) 10) 0
           eq_refl eq_refl dry_days_mean)
    with (stats := ∅); reflexivity.
Qed.

(** C7, evaluated where it fails. The terrain lookup raises while
    every other service answers (no water feature in reach, ten dry
    days). The request for (41.0, 29.0) then ends in the error answer,
    status 500: the sentinels [slope_deg = 2.0] and [land_class = 50]
    are not substituted and the hydraulic computation is not reached.
    The same request over statistics that merely lack their entries does
    get the sentinels and succeeds, which is all that the defaults of
    lines 97 and 99 cover. *)
Theorem C7_terrain_failure_not_recovered :
  ee_reduce_region terrain_timeout_provider 41.0 29.0 250 = Raise EEException /\
  analyze terrain_timeout_provider request_41_29 = Response.Error EEException /\
  Response.status_code (analyze terrain_timeout_provider request_41_29) = 500%Z /\
  analyze terrain_empty_provider request_41_29
  = Response.Success
      (response_body 41.0 29.0 250
         (500, municipal_label, Coord (PNum (41.0 - 0.004)) (PNum 29.0))
         2.0 50 0).
Proof.
  split; [reflexivity |].
  assert (H : analyze terrain_timeout_provider request_41_29
              = Response.Error EEException).
  { unfold analyze.
    rewrite (analyze_body_from_terrain terrain_timeout_provider request_41_29
               41.0 29.0 250
               request_41_29_lat request_41_29_lon request_41_29_radius
               eq_refl
               (500, municipal_label, Coord (PNum (41.0 - 0.004)) (PNum 29.0))
               eq_refl).
    reflexivity. }
  split; [exact H |].
  split; [rewrite H; reflexivity | exact terrain_empty_sample].
Qed.

(** ** The urban scenario: radius 250, land class 50, slope of 2 degrees *)

Lemma slope_pct_2deg : 3.49 < slope_pct 2.0 < 3.5.
Proof. unfold slope_pct. pose proof tan_2deg. lra. Qed.

Lemma S_metric_2deg : S_metric (slope_pct 2.0) = tan (radians 2.0).
Proof.
  unfold S_metric, slope_pct. pose proof tan_2deg.
  rewrite Rmax_right by lra. field.
Qed.

Lemma area_ha_250 : 19.63 < area_ha 250 < 19.64.
Proof. unfold area_ha. pose proof PI_bounds. lra. Qed.

Lemma Q_flow_urban_250 : 3.0133 < Q_flow 50 250 < 3.0135.
Proof.
  unfold Q_flow, i_intensity, area_ha, C.
  case_decide; [| contradiction].
  pose proof PI_bounds. lra.
Qed.

Lemma urban_scenario_system_and_flow :
  selected_system (slope_pct 2.0) 50 = "reticular" /\
  py_round (Q_flow 50 250) 3 = 3.013.
Proof.
  pose proof Q_flow_urban_250 as HQ. pose proof slope_pct_2deg as Hsp.
  split.
  - unfold selected_system.
    destruct (Rgt_dec (slope_pct 2.0) 12); [lra |].
    case_decide; [reflexivity | contradiction].
  - rewrite (py_round_near _ 3 3013) by (simpl; lra). simpl. lra.
Qed.

(** C9, as the code has it. For radius 250, land class 50 and a slope of
    2 degrees the engine computes [C = 0.85]; [S = max(0.005, tan(2
    degrees))], which is [tan(2 degrees)], about 0.0349, and not the
    floor 0.005; [area_ha = pi * 250^2 / 10000], about 19.63; [Q] about
    3.013 (reported as 3.013, within 0.002 of 3.012); and the pattern
    reticular, the slope being about 3.49 per cent. *)
Theorem C9_urban_scenario :
  C 50 = 0.85 /\
  S_metric (slope_pct 2.0) = Rmax 0.005 (tan (radians 2.0) * 100 / 100) /\
  S_metric (slope_pct 2.0) = tan (radians 2.0) /\
  0.0349 < S_metric (slope_pct 2.0) < 0.035 /\
  area_ha 250 = PI * 250 ^ 2 / 10000 /\
  19.63 < area_ha 250 < 19.64 /\
  Q_flow 50 250 = (0.85 * 65 * area_ha 250) / 360 /\
  3.0133 < Q_flow 50 250 < 3.0135 /\
  Rabs (Q_flow 50 250 - 3.012) < 0.002 /\
  py_round (Q_flow 50 250) 3 = 3.013 /\
  3.49 < slope_pct 2.0 < 3.5 /\
  selected_system (slope_pct 2.0) 50 = "reticular".
Proof.
  pose proof tan_2deg as Ht. pose proof Q_flow_urban_250 as HQ.
  pose proof slope_pct_2deg as Hsp.
  split; [reflexivity |].
  split; [reflexivity |].
  split; [apply S_metric_2deg |].
  split; [rewrite S_metric_2deg; exact Ht |].
  split; [reflexivity |].
  split; [apply area_ha_250 |].
  split; [unfold Q_flow, i_intensity, C; case_decide; [reflexivity | contradiction] |].
  split; [exact HQ |].
  split; [apply Rabs_def1; lra |].
  split; [apply urban_scenario_system_and_flow |].
  split; [exact Hsp |].
  apply urban_scenario_system_and_flow.
Qed.

(** C9 as stated fails at the slope: [S] is above 0.0349, so it is not
    the floor 0.005. *)
Lemma C9_slope_floor_counterexample :
  S_metric (slope_pct 2.0) = tan (radians 2.0) /\
  0.0349 < S_metric (slope_pct 2.0) /\
  S_metric (slope_pct 2.0) <> 0.005.
Proof.
  pose proof tan_2deg as Ht. pose proof S_metric_2deg as HS.
  split; [exact HS |].
  split; rewrite HS; lra.
Qed.

(** The scenario through the endpoint: the request for (41.0, 29.0) with
    radius 250 over an urban catchment is answered with the pattern
    reticular and the flow 3.013. *)
Lemma urban_scenario_answer :
  exists b,
    analyze no_rain_data_provider (request_with_radius 250)
    = Response.Success b /\
    Response.system b = "reticular" /\
    Response.q_flow b = 3.013 /\
    Response.description (Response.plan_geometry_of b)
    = "Reticular desenli ana toplayıcı hattı.".
Proof.
  pose proof urban_scenario_system_and_flow as (Hsys & Hq).
  assert (Hlat : request_with_radius 250 !! "lat" = Some (PNum 41.0))
    by (unfold request_with_radius, request_41_29; by simplify_map_eq).
  assert (Hlon : request_with_radius 250 !! "lon" = Some (PNum 29.0))
    by (unfold request_with_radius, request_41_29; by simplify_map_eq).
  assert (Hrad : dict_get (request_with_radius 250) "radius" (PNum 250)
                 = PNum 250)
    by (unfold dict_get, request_with_radius; by simplify_map_eq).
  eexists. split.
  { unfold analyze.
    rewrite (analyze_body_from_terrain no_rain_data_provider
               (request_with_radius 250) 41.0 29.0 250 Hlat Hlon Hrad eq_refl
               (500, municipal_label, Coord (PNum (41.0 - 0.004)) (PNum 29.0))
               eq_refl).
    cbn. rewrite urban_stats_slope; cbn. rewrite urban_stats_land; cbn.
    reflexivity. }
  cbn. rewrite Hsys. split; [reflexivity |]. split; [exact Hq | reflexivity].
Qed.

(** * Further properties of the code *)

(** ** The rainfall series *)

Lemma py_sum_from_ok_iff (l : list pyval) (acc : R) :
  (exists s, py_sum_from acc l = Ok s) <-> Forall (fun v => v <> PNone) l.
Proof.
  revert acc. induction l as [| [| r] t IH]; intros acc; cbn.
  - split; [constructor | eauto].
  - split.
    + intros [s Hs]. discriminate.
    + intros H. inversion H; subst. contradiction.
  - rewrite IH. split.
    + intros H. constructor; [discriminate | exact H].
    + intros H. inversion H; subst. assumption.
Qed.

Lemma mean_rain_ok_iff (rain_data : list pyval) :
  (exists mr, mean_rain rain_data = Ok mr)
  <-> Forall (fun v => v <> PNone) rain_data.
Proof.
  destruct rain_data as [| v t].
  - cbn. split; [constructor | eauto].
  - rewrite <- (py_sum_from_ok_iff (v :: t) 0).
    unfold mean_rain, py_sum.
    destruct (py_sum_from 0 (v :: t)) as [s | e]; cbn; split;
      intros [x Hx]; eauto; discriminate.
Qed.

Lemma mean_rain_none (l1 l2 : list pyval) :
  Forall (fun v => v <> PNone) l1 ->
  mean_rain (l1 ++ PNone :: l2) = Raise TypeError.
Proof.
  intros H. unfold mean_rain, py_sum.
  destruct (l1 ++ PNone :: l2) as [| v t] eqn:E.
  - destruct l1; discriminate.
  - rewrite <- E. rewrite py_sum_from_none by exact H. reflexivity.
Qed.

(** X1. [get_rain_series] never raises. When the archive request fails, in
    any way, it returns ten days of 50.0 mm, whose mean (sum over 10) is
    50; when the request succeeds it returns the ["precipitation_sum"]
    list of the ["daily"] object unchanged, and the empty list when
    either key is missing. *)
Theorem get_rain_series_behaviour (w : Provider) (lat lon : R) :
  (exists series, get_rain_series w lat lon = Ok series) /\
  (forall e, meteo_archive w lat lon = Raise e ->
     get_rain_series w lat lon = Ok (repeat (PNum 50.0) 10) /\
     mean_rain (repeat (PNum 50.0) 10) = Ok 50) /\
  (forall r daily series,
     meteo_archive w lat lon = Ok r -> r !! "daily" = Some daily ->
     daily !! "precipitation_sum" = Some series ->
     get_rain_series w lat lon = Ok series) /\
  (forall r,
     meteo_archive w lat lon = Ok r ->
     r !! "daily" = None \/
     (exists daily, r !! "daily" = Some daily /\
                    daily !! "precipitation_sum" = None) ->
     get_rain_series w lat lon = Ok []).
Proof.
  split; [apply get_rain_series_total |].
  split.
  { intros e He. split; [apply (get_rain_series_fallback w lat lon e He) |].
    change (repeat (PNum 50.0) 10) with (PNum <$> repeat 50.0 10).
    rewrite mean_rain_numbers by discriminate.
    f_equal. unfold sum_R. cbn. lra. }
  split.
  { intros r daily series Hr Hd Hs. unfold get_rain_series, dict_get.
    rewrite Hr; cbn. rewrite Hd; cbn. rewrite Hs. reflexivity. }
  intros r Hr Hk. apply (get_rain_series_no_data w lat lon r Hr Hk).
Qed.

Lemma get_rain_series_behaviour_witness :
  get_rain_series archive_down_provider 41.0 29.0
    = Ok (repeat (PNum 50.0) 10) /\
  mean_rain (repeat (PNum 50.0) 10) = Ok 50 /\
  get_rain_series gap_series_provider 41.0 29.0
    = Ok [PNum 1.5; PNone; PNum 2] /\
  get_rain_series no_rain_data_provider 41.0 29.0 = Ok [].
Proof.
  destruct (get_rain_series_behaviour archive_down_provider 41.0 29.0)
    as (_ & Hfail & _ & _).
  destruct (get_rain_series_behaviour gap_series_provider 41.0 29.0)
    as (_ & _ & Hpass & _).
  destruct (get_rain_series_behaviour no_rain_data_provider 41.0 29.0)
    as (_ & _ & _ & Hnone).
  split; [apply (Hfail RequestException eq_refl) |].
  split; [apply (Hfail RequestException eq_refl) |].
  split.
  - apply (Hpass _ (<["precipitation_sum" := [PNum 1.5; PNone; PNum 2]]> ∅)
             _ eq_refl); by simplify_map_eq.
  - apply (Hnone ∅ eq_refl). left. apply lookup_empty.
Defined.

(** ** The sizing engine *)

Lemma area_ha_mono (r1 r2 : R) :
  0 <= r1 -> r1 <= r2 -> area_ha r1 <= area_ha r2.
Proof.
  intros H1 H12. unfold area_ha. pose proof PI_RGT_0.
  assert (r1 ^ 2 <= r2 ^ 2) by nra.
  apply Rmult_le_compat_r; [lra |]. nra.
Qed.

Lemma Q_flow_mono (land_cls : Z) (r1 r2 : R) :
  0 <= r1 -> r1 <= r2 -> Q_flow land_cls r1 <= Q_flow land_cls r2.
Proof.
  intros H1 H12. unfold Q_flow, i_intensity.
  pose proof (C_pos land_cls). pose proof (area_ha_mono r1 r2 H1 H12).
  apply Rmult_le_compat_r; [lra |]. nra.
Qed.

Lemma D_mm_corrected_nonneg (len D : R) :
  0 <= D -> 0 <= D_mm_corrected len D.
Proof. intros H. unfold D_mm_corrected. destruct (Rgt_dec len 1000); lra. Qed.

(** X2. A larger catchment never gets a smaller pipe: with the land class,
    the slope and the distance to the outlet fixed, the final diameter
    (friction correction included) does not decrease when the radius
    grows from [r1 >= 0] to [r2 >= r1]. *)
Theorem final_diameter_monotone_in_radius
    (land_cls : Z) (sp dist_to_water r1 r2 : R) :
  0 <= r1 -> r1 <= r2 ->
  D_mm_corrected (total_len r1 dist_to_water)
    (D_mm (Q_flow land_cls r1) (S_metric sp))
  <= D_mm_corrected (total_len r2 dist_to_water)
       (D_mm (Q_flow land_cls r2) (S_metric sp)).
Proof.
  intros H1 H12.
  pose proof (D_mm_mono _ _ (S_metric sp) (Q_flow_nonneg land_cls r1)
                (Q_flow_mono land_cls r1 r2 H1 H12)) as HD.
  pose proof (D_mm_nonneg (Q_flow land_cls r1) (S_metric sp)) as HD1.
  unfold D_mm_corrected, total_len.
  destruct (Rgt_dec (r1 + dist_to_water) 1000);
    destruct (Rgt_dec (r2 + dist_to_water) 1000); lra.
Qed.

Lemma final_diameter_monotone_in_radius_witness :
  D_mm_corrected (total_len 250 500) (D_mm (Q_flow 50 250) (S_metric 3))
  <= D_mm_corrected (total_len 600 500) (D_mm (Q_flow 50 600) (S_metric 3)).
Proof. apply (final_diameter_monotone_in_radius 50 3 500 250 600); lra. Defined.

Lemma manning_base_antitone_S (Q S1 S2 : R) :
  0 <= Q -> 0 < S1 -> S1 <= S2 -> manning_base Q S2 <= manning_base Q S1.
Proof.
  intros HQ HS1 HS12. unfold manning_base, n.
  pose proof four_pow_5_3_pos. pose proof PI_RGT_0.
  pose proof (sqrt_lt_R0 S1 HS1) as Hs1.
  pose proof (sqrt_le_1_alt S1 S2 HS12) as Hs12.
  apply Rmult_le_compat_l; [nra |].
  apply Rinv_le_contravar; nra.
Qed.

Lemma S_metric_mono (sp1 sp2 : R) :
  sp1 <= sp2 -> S_metric sp1 <= S_metric sp2.
Proof.
  intros H. unfold S_metric.
  apply Rmax_lub; [apply Rmax_l |].
  apply Rle_trans with (sp2 / 100); [lra | apply Rmax_r].
Qed.

Lemma S_metric_at_floor (sp : R) : sp <= 0.5 -> S_metric sp = 0.005.
Proof. intros H. unfold S_metric. apply Rmax_left. lra. Qed.

(** X3. A steeper slope never needs a larger pipe, and below the slope floor
    the slope does not matter: for a flow [Q >= 0] the uncorrected
    diameter does not increase when the slope (in per cent) grows, every
    slope of at most 0.5 per cent (also a negative one) gives the
    diameter of the floor [S = 0.005], and no slope gives more. *)
Theorem diameter_antitone_in_slope (Q sp1 sp2 : R) :
  0 <= Q -> sp1 <= sp2 ->
  D_mm Q (S_metric sp2) <= D_mm Q (S_metric sp1) /\
  (sp2 <= 0.5 -> D_mm Q (S_metric sp1) = D_mm Q 0.005 /\
                 D_mm Q (S_metric sp2) = D_mm Q 0.005) /\
  D_mm Q (S_metric sp2) <= D_mm Q 0.005.
Proof.
  intros HQ H12.
  assert (Hanti : forall S1 S2, 0 < S1 -> S1 <= S2 -> D_mm Q S2 <= D_mm Q S1).
  { intros S1 S2 HS1 HS12. unfold D_mm.
    apply Rmult_le_compat_r; [lra |].
    apply float_pow_mono; [lra |].
    split; [apply manning_base_nonneg; exact HQ |].
    apply manning_base_antitone_S; assumption. }
  split.
  { apply Hanti; [pose proof (S_metric_floor sp1); lra |].
    apply S_metric_mono; exact H12. }
  split.
  { intros H2. rewrite !S_metric_at_floor by lra. split; reflexivity. }
  apply Hanti; [lra | apply S_metric_floor].
Qed.

Lemma diameter_antitone_in_slope_witness :
  D_mm 3 (S_metric 8) <= D_mm 3 (S_metric 0.2) /\
  D_mm 3 (S_metric 0.2) = D_mm 3 0.005.
Proof.
  destruct (diameter_antitone_in_slope 3 0.2 8) as (H1 & _ & _); [lra | lra |].
  destruct (diameter_antitone_in_slope 3 0.2 0.4) as (_ & H2 & _);
    [lra | lra |].
  split; [exact H1 | apply H2; lra].
Defined.

Lemma manning_base_scale (k Q S : R) :
  manning_base (k * Q) S = k * manning_base Q S.
Proof. unfold manning_base, Rdiv. ring. Qed.

Lemma float_pow_scale_sq (k x : R) :
  0 < k -> 0 <= x ->
  float_pow (k ^ 2 * x) (3 / 8) = Rpower k (3 / 4) * float_pow x (3 / 8).
Proof.
  intros Hk Hx.
  destruct (Req_dec_T x 0) as [-> | Hne].
  - rewrite Rmult_0_r, float_pow_0 by lra. ring.
  - assert (Hk2 : 0 < k ^ 2) by (apply pow_lt; exact Hk).
    rewrite !float_pow_pos by nra.
    rewrite <- Rpower_mult_distr by lra.
    f_equal.
    rewrite <- (Rpower_pow 2 k Hk), Rpower_mult.
    f_equal. simpl. lra.
Qed.

(** X4. Scaling with the radius. Multiplying the radius by [k > 0]
    multiplies the catchment area and the peak flow by [k^2] and the
    uncorrected diameter by [k^(3/4)]: the diameter grows more slowly
    than the radius. *)
Theorem radius_scaling (land_cls : Z) (k radius S : R) :
  0 < k ->
  area_ha (k * radius) = k ^ 2 * area_ha radius /\
  Q_flow land_cls (k * radius) = k ^ 2 * Q_flow land_cls radius /\
  D_mm (Q_flow land_cls (k * radius)) S
  = Rpower k (3 / 4) * D_mm (Q_flow land_cls radius) S.
Proof.
  intros Hk.
  assert (HA : area_ha (k * radius) = k ^ 2 * area_ha radius)
    by (unfold area_ha, Rdiv; ring).
  assert (HQ : Q_flow land_cls (k * radius) = k ^ 2 * Q_flow land_cls radius)
    by (unfold Q_flow; rewrite HA; unfold Rdiv; ring).
  split; [exact HA |]. split; [exact HQ |].
  unfold D_mm. rewrite HQ, manning_base_scale.
  rewrite float_pow_scale_sq;
    [ring | exact Hk | apply manning_base_nonneg, Q_flow_nonneg].
Qed.

(** Doubling the radius quadruples the flow. *)
Lemma radius_scaling_witness :
  Q_flow 50 (2 * 250) = 2 ^ 2 * Q_flow 50 250 /\
  D_mm (Q_flow 50 (2 * 250)) 0.005
  = Rpower 2 (3 / 4) * D_mm (Q_flow 50 250) 0.005.
Proof.
  destruct (radius_scaling 50 2 250 0.005) as (_ & HQ & HD); [lra |].
  split; [exact HQ | exact HD].
Defined.

(** X5. Urban against natural land. On the same catchment the peak flow of
    land class 50 is 2.125 times (0.85 / 0.40) the one of any other
    class, so the urban diameter is never the smaller one. *)
Theorem urban_flow_factor (land_cls : Z) (radius S : R) :
  land_cls <> 50%Z ->
  Q_flow 50 radius = 2.125 * Q_flow land_cls radius /\
  D_mm (Q_flow land_cls radius) S <= D_mm (Q_flow 50 radius) S.
Proof.
  intros Hne.
  assert (HQ : Q_flow 50 radius = 2.125 * Q_flow land_cls radius).
  { unfold Q_flow, C. case_decide; [| contradiction].
    case_decide; [contradiction |]. unfold Rdiv. lra. }
  split; [exact HQ |].
  apply D_mm_mono; [apply Q_flow_nonneg |].
  rewrite HQ. pose proof (Q_flow_nonneg land_cls radius). lra.
Qed.

Lemma urban_flow_factor_witness :
  Q_flow 50 250 = 2.125 * Q_flow 10 250 /\
  D_mm (Q_flow 10 250) 0.005 <= D_mm (Q_flow 50 250) 0.005.
Proof. apply (urban_flow_factor 10 250 0.005). lia. Defined.

(** ** The land class read from the statistics *)

Lemma Zceil_nonpos (r : R) : r < 0 -> (Zceil r <= 0)%Z.
Proof.
  intros Hr. unfold Zceil.
  assert (0 <= Zfloor (- r))%Z by (apply Zfloor_lub; simpl; lra).
  lia.
Qed.

(** X6. [int(...)] truncates the modal land class: a ["land_mode"] of [r]
    is read as class 50, and so gets the runoff coefficient 0.85,
    exactly when [50 <= r < 51]; every other number gets 0.40. *)
Theorem land_mode_truncation (r : R) :
  exists land_cls,
    py_int (PNum r) = Ok land_cls /\
    (land_cls = 50%Z <-> 50 <= r < 51) /\
    (50 <= r < 51 -> C land_cls = 0.85) /\
    (~ 50 <= r < 51 -> C land_cls = 0.40).
Proof.
  cbn.
  assert (Hiff : (if Rle_dec 0 r then Zfloor r else Zceil r) = 50%Z
                 <-> 50 <= r < 51).
  { destruct (Rle_dec 0 r) as [Hr | Hr].
    - pose proof (Zfloor_bound r) as [Hf1 Hf2]. split.
      + intros E. rewrite E in Hf1, Hf2. lra.
      + intros [H1 H2]. apply Zfloor_eq. lra.
    - split.
      + intros E. pose proof (Zceil_nonpos r ltac:(lra)). lia.
      + intros [H1 H2]. lra. }
  eexists. split; [reflexivity |]. split; [exact Hiff |].
  unfold C. split; intros H; case_decide as Hd.
  - reflexivity.
  - apply Hiff in H. contradiction.
  - apply Hiff in Hd. contradiction.
  - reflexivity.
Qed.

Lemma land_mode_truncation_witness :
  exists land_cls, py_int (PNum 50.7) = Ok land_cls /\ C land_cls = 0.85.
Proof.
  destruct (land_mode_truncation 50.7) as (land_cls & Hint & _ & HC & _).
  exists land_cls. split; [exact Hint | apply HC; lra].
Defined.

(** ** The water-outlet locator on incomplete feature data *)

(** X7. Water features exist but the nearest one cannot be read: the
    distance lookup raises or gives [None], or the coordinate lookup
    raises or gives a list of fewer than two entries. Each of these is
    caught, and the result is the regional-line fallback (350 m, 0.003
    degrees south), not the municipal one and not an error. *)
Theorem find_nearest_water_unreadable_feature
    (w : Provider) (lat lon max_dist : R) (size : Z) :
  ee_water_size w lat lon max_dist = Ok size -> size <> 0%Z ->
  (exists e, ee_nearest_distance w lat lon max_dist = Raise e) \/
  ee_nearest_distance w lat lon max_dist = Ok PNone \/
  (exists e, ee_nearest_coords w lat lon max_dist = Raise e) \/
  (exists coords, ee_nearest_coords w lat lon max_dist = Ok coords /\
                  (length coords < 2)%nat) ->
  find_nearest_water w lat lon max_dist
  = Ok (350, regional_label, Coord (PNum (lat - 0.003)) (PNum lon)).
Proof.
  intros Hs Hne Hbad.
  unfold find_nearest_water, find_nearest_water_body.
  rewrite Hs; cbn. case_decide; [contradiction |].
  destruct Hbad as [[e He] | [He | [[e He] | (coords & He & Hlen)]]].
  - rewrite He. reflexivity.
  - rewrite He. reflexivity.
  - rewrite He.
    destruct (ee_nearest_distance w lat lon max_dist) as [[| d] | e'];
      reflexivity.
  - rewrite He.
    destruct (ee_nearest_distance w lat lon max_dist) as [[| d] | e'];
      try reflexivity.
    destruct coords as [| c0 [| c1 rest]]; cbn in *; try reflexivity. lia.
Qed.

Lemma find_nearest_water_unreadable_feature_witness :
  find_nearest_water null_distance_provider 41.0 29.0 2000
  = Ok (350, regional_label, Coord (PNum (41.0 - 0.003)) (PNum 29.0)).
Proof.
  apply (find_nearest_water_unreadable_feature null_distance_provider
           41.0 29.0 2000 3 eq_refl).
  - lia.
  - right. left. reflexivity.
Defined.

(** ** The endpoint: requests *)

(** X8. A request without a usable coordinate is answered with the error
    envelope, whatever the services would answer: a missing ["lat"] or
    ["lon"] key is a [KeyError], a [null] one a [TypeError], and a
    [null] radius a [TypeError]; ["lat"] is read first. *)
Theorem analyze_malformed_request (w : Provider) (data : gmap string pyval) :
  (data !! "lat" = None -> analyze w data = Response.Error KeyError) /\
  (data !! "lat" = Some PNone -> analyze w data = Response.Error TypeError) /\
  (forall lat, data !! "lat" = Some (PNum lat) ->
     (data !! "lon" = None -> analyze w data = Response.Error KeyError) /\
     (data !! "lon" = Some PNone ->
      analyze w data = Response.Error TypeError) /\
     (forall lon, data !! "lon" = Some (PNum lon) ->
        data !! "radius" = Some PNone ->
        analyze w data = Response.Error TypeError)).
Proof.
  unfold analyze, analyze_body, dict_item, dict_get.
  split; [intros ->; reflexivity |].
  split; [intros ->; reflexivity |].
  intros lat ->; cbn.
  split; [intros ->; reflexivity |].
  split; [intros ->; reflexivity |].
  intros lon -> ->. reflexivity.
Qed.

Lemma analyze_malformed_request_witness :
  analyze no_rain_data_provider ∅ = Response.Error KeyError /\
  analyze no_rain_data_provider (<["lat" := PNum 41.0]> ∅)
  = Response.Error KeyError.
Proof.
  split.
  - apply (analyze_malformed_request no_rain_data_provider ∅).
    apply lookup_empty.
  - apply (analyze_malformed_request no_rain_data_provider
             (<["lat" := PNum 41.0]> ∅)) with (lat := 41.0);
      by simplify_map_eq.
Defined.

(** X9. The radius defaults to 250: a request without a ["radius"] key is
    answered exactly as the same request with ["radius": 250]. *)
Theorem analyze_default_radius (w : Provider) (data : gmap string pyval) :
  data !! "radius" = None ->
  analyze w data = analyze w (<["radius" := PNum 250]> data).
Proof.
  intros Hr. unfold analyze, analyze_body, dict_item, dict_get.
  rewrite (lookup_insert_ne data "radius" "lat") by done.
  rewrite (lookup_insert_ne data "radius" "lon") by done.
  rewrite lookup_insert_eq, Hr. reflexivity.
Qed.

Lemma analyze_default_radius_witness :
  analyze no_rain_data_provider request_41_29
  = analyze no_rain_data_provider (<["radius" := PNum 250]> request_41_29).
Proof.
  apply (analyze_default_radius no_rain_data_provider request_41_29).
  unfold request_41_29. by simplify_map_eq.
Defined.

(** *** Requests with numeric coordinates

    The request carries numbers under ["lat"] and ["lon"], and its
    radius is a number or is absent. *)
Section NumericRequest.

Variables (w : Provider) (data : gmap string pyval) (lat lon radius : R).

Hypothesis Hlat : data !! "lat" = Some (PNum lat).
Hypothesis Hlon : data !! "lon" = Some (PNum lon).
Hypothesis Hrad : dict_get data "radius" (PNum 250) = PNum radius.

Lemma analyze_success_conditions :
  (exists b, analyze w data = Response.Success b) <->
  ee_buffer w lat lon radius = Ok tt /\
  exists stats rain_data,
    ee_reduce_region w lat lon radius = Ok stats /\
    dict_get stats "slope_mean" (PNum 2.0) <> PNone /\
    dict_get stats "land_mode" (PNum 50) <> PNone /\
    get_rain_series w lat lon = Ok rain_data /\
    Forall (fun v => v <> PNone) rain_data.
Proof.
  split.
  - intros [b H]. unfold analyze, analyze_body, dict_item in H.
    rewrite Hlat in H; cbn in H. rewrite Hlon in H; cbn in H.
    rewrite Hrad in H; cbn in H.
    destruct (ee_buffer w lat lon radius) as [[] | e] eqn:Hbuf; cbn in H;
      try discriminate.
    destruct (find_nearest_water w lat lon 2000) as [outlet | e] eqn:Hw;
      cbn in H; try discriminate.
    destruct (ee_reduce_region w lat lon radius) as [stats | e] eqn:Hst;
      cbn in H; try discriminate.
    destruct (dict_get stats "slope_mean" (PNum 2.0)) as [| slope_deg] eqn:Hsl;
      cbn in H; try discriminate.
    destruct (dict_get stats "land_mode" (PNum 50)) as [| land_mode] eqn:Hland;
      cbn in H; try discriminate.
    destruct (get_rain_series w lat lon) as [rain_data | e] eqn:Hrain;
      cbn in H; try discriminate.
    destruct (mean_rain rain_data) as [mr | e] eqn:Hmr; cbn in H;
      try discriminate.
    split; [reflexivity |].
    exists stats, rain_data.
    rewrite Hsl, Hland.
    repeat split; try discriminate.
    apply mean_rain_ok_iff. eauto.
  - intros (Hbuf & stats & rain_data & Hst & Hsl & Hland & Hrain & Hall).
    destruct (find_nearest_water_returns w lat lon 2000) as [outlet Hw].
    apply mean_rain_ok_iff in Hall as [mr Hmr].
    unfold analyze.
    rewrite (analyze_body_from_terrain w data lat lon radius
               Hlat Hlon Hrad Hbuf outlet Hw).
    rewrite Hst; cbn.
    destruct (dict_get stats "slope_mean" (PNum 2.0)) as [| slope_deg];
      [contradiction |]; cbn.
    destruct (dict_get stats "land_mode" (PNum 50)) as [| land_mode];
      [contradiction |]; cbn.
    rewrite Hrain; cbn. rewrite Hmr; cbn. eauto.
Qed.

(** X10. What the services must answer for a request to succeed. For a
    request with numeric coordinates and a radius (given or defaulted)
    of a magnitude whose square a float holds, the answer is a success
    exactly when the catchment geometry builds, the terrain lookup
    answers with statistics whose ["slope_mean"] and ["land_mode"] are
    absent or not [None], and the rainfall series has no [None] in it.
    The water lookup is not among the conditions: it cannot make a
    request fail. *)
Theorem analyze_success_iff :
  Rabs radius <= 10 ^ 150 ->
  ((exists b, analyze w data = Response.Success b) <->
   ee_buffer w lat lon radius = Ok tt /\
   exists stats rain_data,
     ee_reduce_region w lat lon radius = Ok stats /\
     dict_get stats "slope_mean" (PNum 2.0) <> PNone /\
     dict_get stats "land_mode" (PNum 50) <> PNone /\
     get_rain_series w lat lon = Ok rain_data /\
     Forall (fun v => v <> PNone) rain_data).
Proof. intros _. apply analyze_success_conditions. Qed.

End NumericRequest.

Lemma sample_request_succeeds :
  exists b, analyze no_rain_data_provider request_41_29 = Response.Success b.
Proof.
  apply (analyze_success_conditions no_rain_data_provider request_41_29
           41.0 29.0 250
           request_41_29_lat request_41_29_lon request_41_29_radius).
  split; [reflexivity |].
  exists urban_stats, [].
  split; [reflexivity |].
  split; [unfold dict_get, urban_stats; by simplify_map_eq |].
  split; [unfold dict_get, urban_stats; by simplify_map_eq |].
  split; [reflexivity | constructor].
Qed.

Lemma radius_250_in_range : Rabs 250 <= 10 ^ 150.
Proof.
  rewrite Rabs_pos_eq by lra.
  apply Rle_trans with (10 ^ 3); [simpl; lra |].
  apply Rle_pow; [lra | lia].
Qed.

(** The sample request succeeds over an urban catchment, and fails when
    the terrain lookup times out. *)
Lemma analyze_success_iff_witness :
  (exists b, analyze no_rain_data_provider request_41_29
             = Response.Success b) /\
  ~ (exists b, analyze terrain_timeout_provider request_41_29
               = Response.Success b).
Proof.
  pose proof (analyze_success_iff no_rain_data_provider request_41_29
                41.0 29.0 250
                request_41_29_lat request_41_29_lon request_41_29_radius
                radius_250_in_range) as Hgood.
  pose proof (analyze_success_iff terrain_timeout_provider request_41_29
                41.0 29.0 250
                request_41_29_lat request_41_29_lon request_41_29_radius
                radius_250_in_range) as Hbad.
  split.
  - apply Hgood. split; [reflexivity |].
    exists urban_stats, [].
    split; [reflexivity |].
    split; [unfold dict_get, urban_stats; by simplify_map_eq |].
    split; [unfold dict_get, urban_stats; by simplify_map_eq |].
    split; [reflexivity | constructor].
  - intros Hs. apply Hbad in Hs as (_ & stats & rain & Hst & _).
    discriminate Hst.
Defined.

(** ** The endpoint: the answer *)

Lemma find_nearest_water_shape (w : Provider) (lat lon max_dist : R)
    (d : R) (label : string) (c : coord) :
  find_nearest_water w lat lon max_dist = Ok (d, label, c) ->
  (label = municipal_label /\ d = 500 /\
   c = Coord (PNum (lat - 0.004)) (PNum lon)) \/
  (label = regional_label /\ d = 350 /\
   c = Coord (PNum (lat - 0.003)) (PNum lon)) \/
  (label = natural_label /\
   exists dist, ee_nearest_distance w lat lon max_dist = Ok (PNum dist) /\
                d = py_round dist 1).
Proof.
  intros H.
  destruct (find_nearest_water_body_cases w lat lon max_dist)
    as [Hz | [[e He] | (size & dist & c0 & c1 & rest & Hs & Hne & Hd & Hc)]].
  - unfold find_nearest_water, find_nearest_water_body in H.
    rewrite Hz in H; cbn in H. inversion H; subst. left. auto.
  - unfold find_nearest_water in H. rewrite He in H; cbn in H.
    inversion H; subst. right; left. auto.
  - rewrite (find_nearest_water_found w lat lon max_dist size dist c0 c1 rest
               Hs Hne Hd Hc) in H.
    inversion H; subst. right; right. eauto.
Qed.

Lemma outlet_labels_NoDup : NoDup outlet_labels.
Proof. apply (bool_decide_unpack _). vm_compute. reflexivity. Qed.

(** X11. The discharge block and the plan of a success answer fit together.
    The path has two points, the requested centre and then the
    discharge target; [total_pipe_m] is [radius + distance_m] rounded to
    one decimal; the target label is one of three different labels, and
    it tells the fallbacks apart: the municipal line is always 500 m
    away and 0.004 degrees south of the centre, the regional line 350 m
    and 0.003 degrees. *)
Theorem analyze_discharge_consistent (w : Provider)
    (data : gmap string pyval) (b : Response.body) :
  analyze w data = Response.Success b ->
  exists lat lon radius,
    data !! "lat" = Some (PNum lat) /\
    data !! "lon" = Some (PNum lon) /\
    dict_get data "radius" (PNum 250) = PNum radius /\
    Response.pipe_path (Response.plan_geometry_of b)
    = [Coord (PNum lat) (PNum lon);
       Coord (Response.target_lat (Response.discharge_of b))
             (Response.target_lon (Response.discharge_of b))] /\
    Response.total_pipe_m (Response.discharge_of b)
    = py_round (radius + Response.distance_m (Response.discharge_of b)) 1 /\
    Response.target (Response.discharge_of b) ∈ outlet_labels /\
    NoDup outlet_labels /\
    (Response.target (Response.discharge_of b) = municipal_label ->
     Response.distance_m (Response.discharge_of b) = 500 /\
     Response.target_lat (Response.discharge_of b) = PNum (lat - 0.004) /\
     Response.target_lon (Response.discharge_of b) = PNum lon) /\
    (Response.target (Response.discharge_of b) = regional_label ->
     Response.distance_m (Response.discharge_of b) = 350 /\
     Response.target_lat (Response.discharge_of b) = PNum (lat - 0.003) /\
     Response.target_lon (Response.discharge_of b) = PNum lon).
Proof.
  intros H. apply analyze_success_inv in H
    as (lat & lon & radius & [[dist label] [tlat tlon]] & stats & slope_deg
        & land_cls & rain & mr & Hlat & Hlon & Hrad & Hw & _ & _ & _ & _ & _
        & ->).
  exists lat, lon, radius. cbn.
  split; [exact Hlat |]. split; [exact Hlon |]. split; [exact Hrad |].
  split; [reflexivity |]. split; [reflexivity |].
  apply find_nearest_water_shape in Hw.
  split.
  { unfold outlet_labels.
    destruct Hw as [(-> & _) | [(-> & _) | (-> & _)]]; set_solver. }
  split; [apply outlet_labels_NoDup |].
  split; intros ->;
    destruct Hw as [(Hl & Hd & Hc) | [(Hl & Hd & Hc) | (Hl & _)]];
    try discriminate; inversion Hc; subst; auto.
Qed.

Lemma analyze_discharge_consistent_witness :
  exists b lat lon radius,
    analyze no_rain_data_provider request_41_29 = Response.Success b /\
    request_41_29 !! "lat" = Some (PNum lat) /\
    request_41_29 !! "lon" = Some (PNum lon) /\
    dict_get request_41_29 "radius" (PNum 250) = PNum radius /\
    Response.total_pipe_m (Response.discharge_of b)
    = py_round (radius + Response.distance_m (Response.discharge_of b)) 1 /\
    Response.target (Response.discharge_of b) ∈ outlet_labels.
Proof.
  destruct sample_request_succeeds as [b Hb].
  destruct (analyze_discharge_consistent no_rain_data_provider request_41_29
              b Hb)
    as (lat & lon & radius & Hlat & Hlon & Hrad & _ & Htot & Hin & _).
  exists b, lat, lon, radius. repeat split; assumption.
Defined.

Lemma round_half_even_nonneg (x : R) : 0 <= x -> (0 <= round_half_even x)%Z.
Proof.
  intros Hx. unfold round_half_even.
  assert (0 <= Zfloor x)%Z by (apply Zfloor_lub; simpl; lra).
  destruct (Rlt_dec (x - IZR (Zfloor x)) (1 / 2)); [assumption |].
  destruct (Rlt_dec (1 / 2) (x - IZR (Zfloor x))); [lia |].
  destruct (Z.even (Zfloor x)); lia.
Qed.

Lemma py_round_nonneg (x : R) (ndigits : nat) :
  0 <= x -> 0 <= py_round x ndigits.
Proof.
  intros Hx. unfold py_round.
  assert (Hp : 0 < 10 ^ ndigits) by (apply pow_lt; lra).
  apply Rmult_le_pos; [| apply Rlt_le, Rinv_0_lt_compat; exact Hp].
  apply IZR_le, round_half_even_nonneg. nra.
Qed.

(** X12. The figures of a success answer, against the lookups they come
    from. For a request with numeric coordinates and radius that is
    answered with success, take the statistics the terrain lookup
    returned for that catchment, the slope [slope_deg] they give
    (["slope_mean"], or 2.0 when absent), the land class [land_cls] they
    give ([int] of ["land_mode"], or 50), and the outlet the water
    lookup returned. Then the reported pattern is the classification of
    that slope and class, with its description sentence; the reported
    flow and diameter are not negative; the flow is within 0.0005 of
    [Q_flow] for that class and radius, the slope within 0.005 of
    [slope_pct], and the diameter within 0.5 of the friction-corrected
    Manning diameter for that flow, slope and total length. *)
Theorem analyze_reported_figures (w : Provider) (data : gmap string pyval)
    (lat lon radius : R) (b : Response.body) :
  data !! "lat" = Some (PNum lat) ->
  data !! "lon" = Some (PNum lon) ->
  dict_get data "radius" (PNum 250) = PNum radius ->
  analyze w data = Response.Success b ->
  exists stats slope_deg land_cls dist_to_water label target,
    ee_reduce_region w lat lon radius = Ok stats /\
    dict_get stats "slope_mean" (PNum 2.0) = PNum slope_deg /\
    py_int (dict_get stats "land_mode" (PNum 50)) = Ok land_cls /\
    find_nearest_water w lat lon 2000 = Ok (dist_to_water, label, target) /\
    Response.distance_m (Response.discharge_of b) = dist_to_water /\
    Response.system b = selected_system (slope_pct slope_deg) land_cls /\
    (Response.system b, Response.description (Response.plan_geometry_of b))
      ∈ plan_descriptions /\
    0 <= Response.q_flow b /\
    0 <= Response.diameter_mm b /\
    Rabs (Response.q_flow b - Q_flow land_cls radius) <= 0.0005 /\
    Rabs (Response.slope_pct b - slope_pct slope_deg) <= 0.005 /\
    Rabs (Response.diameter_mm b
          - D_mm_corrected (total_len radius dist_to_water)
              (D_mm (Q_flow land_cls radius) (S_metric (slope_pct slope_deg))))
    <= 0.5.
Proof.
  intros Hlat Hlon Hrad H. apply analyze_success_inv in H
    as (lat' & lon' & radius' & [[dist label] tgt] & stats & slope_deg
        & land_cls & rain & mr & Hlat' & Hlon' & Hrad' & Hw & Hst & Hsl
        & Hland & _ & _ & ->).
  rewrite Hlat in Hlat'. rewrite Hlon in Hlon'. rewrite Hrad in Hrad'.
  injection Hlat' as <-. injection Hlon' as <-. injection Hrad' as <-.
  exists stats, slope_deg, land_cls, dist, label, tgt. cbn.
  split; [exact Hst |]. split; [exact Hsl |]. split; [exact Hland |].
  split; [exact Hw |]. split; [reflexivity |]. split; [reflexivity |].
  split.
  { pose proof (selected_system_in_patterns (slope_pct slope_deg) land_cls)
      as Hin.
    unfold patterns in Hin. unfold plan_descriptions.
    repeat (apply elem_of_cons in Hin as [-> | Hin]); [.. | inversion Hin];
      cbn; set_solver. }
  split; [apply py_round_nonneg, Q_flow_nonneg |].
  split; [apply py_round_nonneg, D_mm_corrected_nonneg, D_mm_nonneg |].
  split.
  { pose proof (py_round_close (Q_flow land_cls radius) 3) as Hc.
    simpl in Hc. lra. }
  split.
  { pose proof (py_round_close (slope_pct slope_deg) 2) as Hc.
    simpl in Hc. lra. }
  pose proof (py_round_close
                (D_mm_corrected (total_len radius dist)
                   (D_mm (Q_flow land_cls radius)
                      (S_metric (slope_pct slope_deg)))) 0) as Hc.
  simpl in Hc. lra.
Qed.

(** The sample request over the urban catchment: slope 2.0, class 50,
    the municipal outlet 500 m away. *)
Lemma analyze_reported_figures_witness :
  exists b,
    analyze no_rain_data_provider request_41_29 = Response.Success b /\
    Response.system b = selected_system (slope_pct 2.0) 50 /\
    Rabs (Response.q_flow b - Q_flow 50 250) <= 0.0005 /\
    Rabs (Response.diameter_mm b
          - D_mm_corrected (total_len 250 500)
              (D_mm (Q_flow 50 250) (S_metric (slope_pct 2.0))))
    <= 0.5.
Proof.
  destruct sample_request_succeeds as [b Hb].
  destruct (analyze_reported_figures no_rain_data_provider request_41_29
              41.0 29.0 250 b
              request_41_29_lat request_41_29_lon request_41_29_radius Hb)
    as (stats & slope_deg & land_cls & dist & label & target
        & Hst & Hsl & Hland & Hw & _ & Hsys & _ & _ & _ & Hq & _ & Hd).
  injection Hst as <-.
  pose proof urban_stats_slope as Hs2. pose proof urban_stats_land as Hl2.
  rewrite Hsl in Hs2. injection Hs2 as ->.
  rewrite Hland in Hl2. injection Hl2 as ->.
  assert (Hw' : find_nearest_water no_rain_data_provider 41.0 29.0 2000
                = Ok (500, municipal_label,
                      Coord (PNum (41.0 - 0.004)) (PNum 29.0)))
    by reflexivity.
  rewrite Hw' in Hw. injection Hw as <- _ _.
  exists b. repeat split; assumption.
Defined.

(** *** Requests that reach the rainfall series

    The request reaches line 102: the coordinates and the radius are
    numbers, the geometry builds, and the terrain statistics convert. *)
Section ReachesRainfall.

Variables (w : Provider) (data : gmap string pyval) (lat lon radius : R).
Variables (stats : gmap string pyval) (slope_deg : R) (land_cls : Z).

Hypothesis Hlat : data !! "lat" = Some (PNum lat).
Hypothesis Hlon : data !! "lon" = Some (PNum lon).
Hypothesis Hrad : dict_get data "radius" (PNum 250) = PNum radius.
Hypothesis Hbuf : ee_buffer w lat lon radius = Ok tt.
Hypothesis Hst : ee_reduce_region w lat lon radius = Ok stats.
Hypothesis Hsl :
  py_float (dict_get stats "slope_mean" (PNum 2.0)) = Ok slope_deg.
Hypothesis Hland :
  py_int (dict_get stats "land_mode" (PNum 50)) = Ok land_cls.

Lemma analyze_body_from_rainfall (outlet : R * string * coord) :
  find_nearest_water w lat lon 2000 = Ok outlet ->
  analyze_body w data =
    (rain_data ← get_rain_series w lat lon;
     mean_rain ← mean_rain rain_data;
     Ok (response_body lat lon radius outlet slope_deg land_cls mean_rain)).
Proof.
  intros Hw.
  rewrite (analyze_body_from_terrain w data lat lon radius
             Hlat Hlon Hrad Hbuf outlet Hw).
  rewrite Hst; cbn. rewrite Hsl; cbn. rewrite Hland; cbn. reflexivity.
Qed.

(** X13. A failed archive request does not fail the analysis: the answer is
    a success, and its [harvest_m3] is the one of a mean rainfall of 50,
    [round(area_ha * 50 * 0.7)]. *)
Theorem analyze_archive_failure (e : exn) :
  meteo_archive w lat lon = Raise e ->
  exists b, analyze w data = Response.Success b /\
            Response.harvest_m3 b = py_round (area_ha radius * 50 * 0.7) 0.
Proof.
  intros He.
  destruct (find_nearest_water_returns w lat lon 2000) as [outlet Hw].
  destruct (fallback_series_mean w lat lon e He) as (series & Hser & Hmean).
  unfold analyze. rewrite (analyze_body_from_rainfall outlet Hw).
  rewrite Hser; cbn. rewrite Hmean; cbn.
  eexists. split; [reflexivity |].
  destruct outlet as [[dist label] tgt]. reflexivity.
Qed.

(** X14. A gap in the rainfall series does fail it: when the archive answers
    with a series that has a [None] in it, the sum raises and the answer
    is the error envelope with a [TypeError], status 500. *)
Theorem analyze_series_with_gap (l1 l2 : list pyval) :
  get_rain_series w lat lon = Ok (l1 ++ PNone :: l2) ->
  Forall (fun v => v <> PNone) l1 ->
  analyze w data = Response.Error TypeError /\
  Response.status_code (analyze w data) = 500%Z.
Proof.
  intros Hser Hl1.
  destruct (find_nearest_water_returns w lat lon 2000) as [outlet Hw].
  unfold analyze. rewrite (analyze_body_from_rainfall outlet Hw).
  rewrite Hser; cbn. rewrite (mean_rain_none l1 l2 Hl1); cbn.
  split; reflexivity.
Qed.

End ReachesRainfall.

Lemma analyze_archive_failure_witness :
  exists b,
    analyze archive_down_provider request_41_29 = Response.Success b /\
    Response.harvest_m3 b = py_round (area_ha 250 * 50 * 0.7) 0.
Proof.
  apply (analyze_archive_failure archive_down_provider request_41_29
           41.0 29.0 250 urban_stats 2.0 50
           request_41_29_lat request_41_29_lon request_41_29_radius eq_refl
           eq_refl urban_stats_slope urban_stats_land
           RequestException eq_refl).
Defined.

Lemma analyze_series_with_gap_witness :
  analyze gap_series_provider request_41_29 = Response.Error TypeError /\
  Response.status_code (analyze gap_series_provider request_41_29) = 500%Z.
Proof.
  apply (analyze_series_with_gap gap_series_provider request_41_29
           41.0 29.0 250 urban_stats 2.0 50
           request_41_29_lat request_41_29_lon request_41_29_radius eq_refl
           eq_refl urban_stats_slope urban_stats_land
           [PNum 1.5] [PNum 2]).
  - unfold get_rain_series, dict_get. cbn. by simplify_map_eq.
  - repeat constructor. discriminate.
Defined.

(** ** Start-up *)

Lemma gee_lines_differ (msg : string) :
  Ok [gee_error_line msg] = Ok [gee_started_line] -> False.
Proof.
  unfold gee_error_line, gee_started_line. cbn. intros H. discriminate H.
Qed.

(** X15. [initialize_gee] never raises, so a failed authentication does not
    stop the process at import time. It prints exactly one line: the
    success line when both the credential lookup and [ee.Initialize]
    succeed, and otherwise the error line carrying the text of the
    exception that was raised. *)
Theorem initialize_gee_never_raises (a : AuthEnv) :
  (exists line, initialize_gee a = Ok [line]) /\
  (initialize_gee a = Ok [gee_started_line] <->
   exists credentials project,
     auth_default a = Ok (credentials, project) /\
     ee_initialize a credentials project = Ok tt) /\
  (forall e, auth_default a = Raise e ->
     initialize_gee a = Ok [gee_error_line (exn_str a e)]) /\
  (forall credentials project e,
     auth_default a = Ok (credentials, project) ->
     ee_initialize a credentials project = Raise e ->
     initialize_gee a = Ok [gee_error_line (exn_str a e)]).
Proof.
  unfold initialize_gee.
  destruct (auth_default a) as [[credentials project] | e] eqn:Hauth; cbn.
  - destruct (ee_initialize a credentials project) as [[] | e] eqn:Hinit; cbn.
    + split; [eauto |]. split.
      * split; [intros _; exists credentials, project; auto | reflexivity].
      * split; [discriminate |].
        intros c p e [= <- <-]. rewrite Hinit. discriminate.
    + split; [eauto |]. split.
      * split.
        -- intros H. apply gee_lines_differ in H. contradiction.
        -- intros (c & p & [= <- <-] & Hok). rewrite Hinit in Hok.
           discriminate.
      * split; [discriminate |].
        intros c p e' [= <- <-]. rewrite Hinit. intros [= <-]. reflexivity.
  - split; [eauto |]. split.
    + split.
      * intros H. apply gee_lines_differ in H. contradiction.
      * intros (c & p & Habs & _). discriminate.
    + split; [intros e' [= <-]; reflexivity | discriminate].
Qed.

Lemma initialize_gee_never_raises_witness :
  initialize_gee no_credentials_env
  = Ok [gee_error_line "no credentials"] /\
  initialize_gee working_env = Ok [gee_started_line].
Proof.
  split.
  - apply (initialize_gee_never_raises no_credentials_env)
      with (e := EEException). reflexivity.
  - apply (initialize_gee_never_raises working_env).
    exists "credentials", "project". split; reflexivity.
Defined.
